(** * Dialog state machine of ADMTelegramBot.py

    A shallow embedding of the conversation engine of [src/ADMTelegramBot.py]:
    the Python string primitives it relies on, [float()] parsing, the
    handlers of the [ConversationHandler] and the dispatcher that routes an
    update to them.  Text is a list of Unicode code points. *)

From Stdlib Require Import ZArith.
From stdpp Require Import base gmap strings list.

Open Scope N_scope.

(** ** Text *)

(** A Python [str]: its code points. *)
Abbreviation ustr := (list N).

(** ASCII literals of the source as code point lists. *)
Definition s2u (s : string) : ustr :=
  map (fun a => N.of_nat (Ascii.nat_of_ascii a)) (String.list_ascii_of_string s).

Definition ustr_eqb (a b : ustr) : bool := bool_decide (a = b).

(** ** Unicode database (as used by CPython 3.11, Unicode 14.0) *)

(** Code points [c] with [chr(c).isdigit()] (numeric type Digit or
    Decimal), as inclusive ranges. *)
Definition isdigit_ranges : list (N * N) :=
  [
   (48, 57); (178, 179); (185, 185); (1632, 1641); (1776, 1785); (1984, 1993);
   (2406, 2415); (2534, 2543); (2662, 2671); (2790, 2799); (2918, 2927); (3046, 3055);
   (3174, 3183); (3302, 3311); (3430, 3439); (3558, 3567); (3664, 3673); (3792, 3801);
   (3872, 3881); (4160, 4169); (4240, 4249); (4969, 4977); (6112, 6121); (6160, 6169);
   (6470, 6479); (6608, 6618); (6784, 6793); (6800, 6809); (6992, 7001); (7088, 7097);
   (7232, 7241); (7248, 7257); (8304, 8304); (8308, 8313); (8320, 8329); (9312, 9320);
   (9332, 9340); (9352, 9360); (9450, 9450); (9461, 9469); (9471, 9471); (10102, 10110);
   (10112, 10120); (10122, 10130); (42528, 42537); (43216, 43225); (43264, 43273); (43472, 43481);
   (43504, 43513); (43600, 43609); (44016, 44025); (65296, 65305); (66720, 66729); (68160, 68163);
   (68912, 68921); (69216, 69224); (69714, 69722); (69734, 69743); (69872, 69881); (69942, 69951);
   (70096, 70105); (70384, 70393); (70736, 70745); (70864, 70873); (71248, 71257); (71360, 71369);
   (71472, 71481); (71904, 71913); (72016, 72025); (72784, 72793); (73040, 73049); (73120, 73129);
   (92768, 92777); (92864, 92873); (93008, 93017); (120782, 120831); (123200, 123209); (123632, 123641);
   (125264, 125273); (127232, 127242); (130032, 130041)
  ].

(** The code points of value 0 of the decimal digit runs (general category
    Nd); every run has the ten digits 0..9 in order. *)
Definition decimal_zeros : list N :=
  [
   48; 1632; 1776; 1984; 2406; 2534; 2662; 2790; 2918; 3046;
   3174; 3302; 3430; 3558; 3664; 3792; 3872; 4160; 4240; 6112;
   6160; 6470; 6608; 6784; 6800; 6992; 7088; 7232; 7248; 42528;
   43216; 43264; 43472; 43504; 43600; 44016; 65296; 66720; 68912; 69734;
   69872; 69942; 70096; 70384; 70736; 70864; 71248; 71360; 71472; 71904;
   72016; 72784; 73040; 73120; 92768; 92864; 93008; 120782; 120792; 120802;
   120812; 120822; 123200; 123632; 125264; 130032
  ].

(** Code points [c] with [chr(c).isspace()] ([Py_UNICODE_ISSPACE]). *)
Definition isspace_points : list N :=
  [
   9; 10; 11; 12; 13; 28; 29; 30; 31; 32;
   133; 160; 5760; 8192; 8193; 8194; 8195; 8196; 8197; 8198;
   8199; 8200; 8201; 8202; 8232; 8233; 8239; 8287; 12288
  ].

Definition py_isdigit_char (c : N) : bool :=
  existsb (fun '(a, b) => (a <=? c) && (c <=? b)) isdigit_ranges.

Definition py_isspace_char (c : N) : bool := existsb (N.eqb c) isspace_points.

(** [Py_UNICODE_TODECIMAL]: the decimal value of a digit of category Nd. *)
Definition py_todecimal (c : N) : option N :=
  match find (fun z => (z <=? c) && (c <? z + 10)) decimal_zeros with
  | Some z => Some (c - z)
  | None => None
  end.

(** ** [str] methods *)

(** [s.startswith(p)] *)
Definition py_startswith (s p : ustr) : bool := bool_decide (take (length p) s = p).

(** [s.isdigit()]: non-empty and every character a digit. *)
Definition py_isdigit (s : ustr) : bool :=
  match s with
  | [] => false
  | _ => forallb py_isdigit_char s
  end.

(** [s[1:]] *)
Definition py_slice1 (s : ustr) : ustr := drop 1 s.

Fixpoint drop_while (p : N -> bool) (s : ustr) : ustr :=
  match s with
  | [] => []
  | c :: s' => if p c then drop_while p s' else s
  end.

(** [s.strip()]: removes leading and trailing whitespace. *)
Definition py_strip (s : ustr) : ustr :=
  rev (drop_while py_isspace_char (rev (drop_while py_isspace_char s))).

(** Case mapping: the Unicode 14.0 case data of CPython 3.11
    ([unicodedata.unidata_version] is ['14.0.0']).  [cased_ranges] and
    [case_ignorable_ranges] are the code points with the [CASED_MASK] and
    [CASE_IGNORABLE_MASK] flags ([_PyUnicode_IsCased],
    [_PyUnicode_IsCaseIgnorable]); [lower_runs] and [lower_special] give
    [_PyUnicode_ToLowerFull], [title_runs] and [title_special] give
    [_PyUnicode_ToTitleFull]: a run [(lo, hi, stride, t)] maps every
    [lo + k * stride <= hi] to [t + k * stride], a special entry maps a code
    point to several; a code point in neither maps to itself. *)
Definition cased_ranges : list (N * N) := [
  (65, 90); (97, 122); (170, 170); (181, 181); (186, 186); (192, 214);
  (216, 246); (248, 442); (444, 447); (452, 659); (661, 696); (704, 705);
  (736, 740); (837, 837); (880, 883); (886, 887); (890, 893); (895, 895);
  (902, 902); (904, 906); (908, 908); (910, 929); (931, 1013); (1015, 1153);
  (1162, 1327); (1329, 1366); (1376, 1416); (4256, 4293); (4295, 4295);
  (4301, 4301); (4304, 4346); (4349, 4351); (5024, 5109); (5112, 5117);
  (7296, 7304); (7312, 7354); (7357, 7359); (7424, 7615); (7680, 7957);
  (7960, 7965); (7968, 8005); (8008, 8013); (8016, 8023); (8025, 8025);
  (8027, 8027); (8029, 8029); (8031, 8061); (8064, 8116); (8118, 8124);
  (8126, 8126); (8130, 8132); (8134, 8140); (8144, 8147); (8150, 8155);
  (8160, 8172); (8178, 8180); (8182, 8188); (8305, 8305); (8319, 8319);
  (8336, 8348); (8450, 8450); (8455, 8455); (8458, 8467); (8469, 8469);
  (8473, 8477); (8484, 8484); (8486, 8486); (8488, 8488); (8490, 8493);
  (8495, 8500); (8505, 8505); (8508, 8511); (8517, 8521); (8526, 8526);
  (8544, 8575); (8579, 8580); (9398, 9449); (11264, 11492); (11499, 11502);
  (11506, 11507); (11520, 11557); (11559, 11559); (11565, 11565);
  (42560, 42605); (42624, 42653); (42786, 42887); (42891, 42894);
  (42896, 42954); (42960, 42961); (42963, 42963); (42965, 42969);
  (42997, 42998); (43000, 43002); (43824, 43866); (43868, 43880);
  (43888, 43967); (64256, 64262); (64275, 64279); (65313, 65338);
  (65345, 65370); (66560, 66639); (66736, 66771); (66776, 66811);
  (66928, 66938); (66940, 66954); (66956, 66962); (66964, 66965);
  (66967, 66977); (66979, 66993); (66995, 67001); (67003, 67004);
  (67456, 67456); (67459, 67461); (67463, 67504); (67506, 67514);
  (68736, 68786); (68800, 68850); (71840, 71903); (93760, 93823);
  (119808, 119892); (119894, 119964); (119966, 119967); (119970, 119970);
  (119973, 119974); (119977, 119980); (119982, 119993); (119995, 119995);
  (119997, 120003); (120005, 120069); (120071, 120074); (120077, 120084);
  (120086, 120092); (120094, 120121); (120123, 120126); (120128, 120132);
  (120134, 120134); (120138, 120144); (120146, 120485); (120488, 120512);
  (120514, 120538); (120540, 120570); (120572, 120596); (120598, 120628);
  (120630, 120654); (120656, 120686); (120688, 120712); (120714, 120744);
  (120746, 120770); (120772, 120779); (122624, 122633); (122635, 122654);
  (125184, 125251); (127280, 127305); (127312, 127337); (127344, 127369)].

Definition case_ignorable_ranges : list (N * N) := [
  (39, 39); (46, 46); (58, 58); (94, 94); (96, 96); (168, 168); (173, 173);
  (175, 175); (180, 180); (183, 184); (688, 879); (884, 885); (890, 890);
  (900, 901); (903, 903); (1155, 1161); (1369, 1369); (1375, 1375);
  (1425, 1469); (1471, 1471); (1473, 1474); (1476, 1477); (1479, 1479);
  (1524, 1524); (1536, 1541); (1552, 1562); (1564, 1564); (1600, 1600);
  (1611, 1631); (1648, 1648); (1750, 1757); (1759, 1768); (1770, 1773);
  (1807, 1807); (1809, 1809); (1840, 1866); (1958, 1968); (2027, 2037);
  (2042, 2042); (2045, 2045); (2070, 2093); (2137, 2139); (2184, 2184);
  (2192, 2193); (2200, 2207); (2249, 2306); (2362, 2362); (2364, 2364);
  (2369, 2376); (2381, 2381); (2385, 2391); (2402, 2403); (2417, 2417);
  (2433, 2433); (2492, 2492); (2497, 2500); (2509, 2509); (2530, 2531);
  (2558, 2558); (2561, 2562); (2620, 2620); (2625, 2626); (2631, 2632);
  (2635, 2637); (2641, 2641); (2672, 2673); (2677, 2677); (2689, 2690);
  (2748, 2748); (2753, 2757); (2759, 2760); (2765, 2765); (2786, 2787);
  (2810, 2815); (2817, 2817); (2876, 2876); (2879, 2879); (2881, 2884);
  (2893, 2893); (2901, 2902); (2914, 2915); (2946, 2946); (3008, 3008);
  (3021, 3021); (3072, 3072); (3076, 3076); (3132, 3132); (3134, 3136);
  (3142, 3144); (3146, 3149); (3157, 3158); (3170, 3171); (3201, 3201);
  (3260, 3260); (3263, 3263); (3270, 3270); (3276, 3277); (3298, 3299);
  (3328, 3329); (3387, 3388); (3393, 3396); (3405, 3405); (3426, 3427);
  (3457, 3457); (3530, 3530); (3538, 3540); (3542, 3542); (3633, 3633);
  (3636, 3642); (3654, 3662); (3761, 3761); (3764, 3772); (3782, 3782);
  (3784, 3789); (3864, 3865); (3893, 3893); (3895, 3895); (3897, 3897);
  (3953, 3966); (3968, 3972); (3974, 3975); (3981, 3991); (3993, 4028);
  (4038, 4038); (4141, 4144); (4146, 4151); (4153, 4154); (4157, 4158);
  (4184, 4185); (4190, 4192); (4209, 4212); (4226, 4226); (4229, 4230);
  (4237, 4237); (4253, 4253); (4348, 4348); (4957, 4959); (5906, 5908);
  (5938, 5939); (5970, 5971); (6002, 6003); (6068, 6069); (6071, 6077);
  (6086, 6086); (6089, 6099); (6103, 6103); (6109, 6109); (6155, 6159);
  (6211, 6211); (6277, 6278); (6313, 6313); (6432, 6434); (6439, 6440);
  (6450, 6450); (6457, 6459); (6679, 6680); (6683, 6683); (6742, 6742);
  (6744, 6750); (6752, 6752); (6754, 6754); (6757, 6764); (6771, 6780);
  (6783, 6783); (6823, 6823); (6832, 6862); (6912, 6915); (6964, 6964);
  (6966, 6970); (6972, 6972); (6978, 6978); (7019, 7027); (7040, 7041);
  (7074, 7077); (7080, 7081); (7083, 7085); (7142, 7142); (7144, 7145);
  (7149, 7149); (7151, 7153); (7212, 7219); (7222, 7223); (7288, 7293);
  (7376, 7378); (7380, 7392); (7394, 7400); (7405, 7405); (7412, 7412);
  (7416, 7417); (7468, 7530); (7544, 7544); (7579, 7679); (8125, 8125);
  (8127, 8129); (8141, 8143); (8157, 8159); (8173, 8175); (8189, 8190);
  (8203, 8207); (8216, 8217); (8228, 8228); (8231, 8231); (8234, 8238);
  (8288, 8292); (8294, 8303); (8305, 8305); (8319, 8319); (8336, 8348);
  (8400, 8432); (11388, 11389); (11503, 11505); (11631, 11631);
  (11647, 11647); (11744, 11775); (11823, 11823); (12293, 12293);
  (12330, 12333); (12337, 12341); (12347, 12347); (12441, 12446);
  (12540, 12542); (40981, 40981); (42232, 42237); (42508, 42508);
  (42607, 42610); (42612, 42621); (42623, 42623); (42652, 42655);
  (42736, 42737); (42752, 42785); (42864, 42864); (42888, 42890);
  (42994, 42996); (43000, 43001); (43010, 43010); (43014, 43014);
  (43019, 43019); (43045, 43046); (43052, 43052); (43204, 43205);
  (43232, 43249); (43263, 43263); (43302, 43309); (43335, 43345);
  (43392, 43394); (43443, 43443); (43446, 43449); (43452, 43453);
  (43471, 43471); (43493, 43494); (43561, 43566); (43569, 43570);
  (43573, 43574); (43587, 43587); (43596, 43596); (43632, 43632);
  (43644, 43644); (43696, 43696); (43698, 43700); (43703, 43704);
  (43710, 43711); (43713, 43713); (43741, 43741); (43756, 43757);
  (43763, 43764); (43766, 43766); (43867, 43871); (43881, 43883);
  (44005, 44005); (44008, 44008); (44013, 44013); (64286, 64286);
  (64434, 64450); (65024, 65039); (65043, 65043); (65056, 65071);
  (65106, 65106); (65109, 65109); (65279, 65279); (65287, 65287);
  (65294, 65294); (65306, 65306); (65342, 65342); (65344, 65344);
  (65392, 65392); (65438, 65439); (65507, 65507); (65529, 65531);
  (66045, 66045); (66272, 66272); (66422, 66426); (67456, 67461);
  (67463, 67504); (67506, 67514); (68097, 68099); (68101, 68102);
  (68108, 68111); (68152, 68154); (68159, 68159); (68325, 68326);
  (68900, 68903); (69291, 69292); (69446, 69456); (69506, 69509);
  (69633, 69633); (69688, 69702); (69744, 69744); (69747, 69748);
  (69759, 69761); (69811, 69814); (69817, 69818); (69821, 69821);
  (69826, 69826); (69837, 69837); (69888, 69890); (69927, 69931);
  (69933, 69940); (70003, 70003); (70016, 70017); (70070, 70078);
  (70089, 70092); (70095, 70095); (70191, 70193); (70196, 70196);
  (70198, 70199); (70206, 70206); (70367, 70367); (70371, 70378);
  (70400, 70401); (70459, 70460); (70464, 70464); (70502, 70508);
  (70512, 70516); (70712, 70719); (70722, 70724); (70726, 70726);
  (70750, 70750); (70835, 70840); (70842, 70842); (70847, 70848);
  (70850, 70851); (71090, 71093); (71100, 71101); (71103, 71104);
  (71132, 71133); (71219, 71226); (71229, 71229); (71231, 71232);
  (71339, 71339); (71341, 71341); (71344, 71349); (71351, 71351);
  (71453, 71455); (71458, 71461); (71463, 71467); (71727, 71735);
  (71737, 71738); (71995, 71996); (71998, 71998); (72003, 72003);
  (72148, 72151); (72154, 72155); (72160, 72160); (72193, 72202);
  (72243, 72248); (72251, 72254); (72263, 72263); (72273, 72278);
  (72281, 72283); (72330, 72342); (72344, 72345); (72752, 72758);
  (72760, 72765); (72767, 72767); (72850, 72871); (72874, 72880);
  (72882, 72883); (72885, 72886); (73009, 73014); (73018, 73018);
  (73020, 73021); (73023, 73029); (73031, 73031); (73104, 73105);
  (73109, 73109); (73111, 73111); (73459, 73460); (78896, 78904);
  (92912, 92916); (92976, 92982); (92992, 92995); (94031, 94031);
  (94095, 94111); (94176, 94177); (94179, 94180); (110576, 110579);
  (110581, 110587); (110589, 110590); (113821, 113822); (113824, 113827);
  (118528, 118573); (118576, 118598); (119143, 119145); (119155, 119170);
  (119173, 119179); (119210, 119213); (119362, 119364); (121344, 121398);
  (121403, 121452); (121461, 121461); (121476, 121476); (121499, 121503);
  (121505, 121519); (122880, 122886); (122888, 122904); (122907, 122913);
  (122915, 122916); (122918, 122922); (123184, 123197); (123566, 123566);
  (123628, 123631); (125136, 125142); (125252, 125259); (127995, 127999);
  (917505, 917505); (917536, 917631); (917760, 917999)].

Definition lower_runs : list (N * N * N * N) := [
  (65, 90, 1, 97); (192, 214, 1, 224); (216, 222, 1, 248);
  (256, 302, 2, 257); (306, 310, 2, 307); (313, 327, 2, 314);
  (330, 374, 2, 331); (376, 376, 1, 255); (377, 381, 2, 378);
  (385, 385, 1, 595); (386, 388, 2, 387); (390, 390, 1, 596);
  (391, 391, 1, 392); (393, 394, 1, 598); (395, 395, 1, 396);
  (398, 398, 1, 477); (399, 399, 1, 601); (400, 400, 1, 603);
  (401, 401, 1, 402); (403, 403, 1, 608); (404, 404, 1, 611);
  (406, 406, 1, 617); (407, 407, 1, 616); (408, 408, 1, 409);
  (412, 412, 1, 623); (413, 413, 1, 626); (415, 415, 1, 629);
  (416, 420, 2, 417); (422, 422, 1, 640); (423, 423, 1, 424);
  (425, 425, 1, 643); (428, 428, 1, 429); (430, 430, 1, 648);
  (431, 431, 1, 432); (433, 434, 1, 650); (435, 437, 2, 436);
  (439, 439, 1, 658); (440, 440, 1, 441); (444, 444, 1, 445);
  (452, 452, 1, 454); (453, 453, 1, 454); (455, 455, 1, 457);
  (456, 456, 1, 457); (458, 458, 1, 460); (459, 475, 2, 460);
  (478, 494, 2, 479); (497, 497, 1, 499); (498, 500, 2, 499);
  (502, 502, 1, 405); (503, 503, 1, 447); (504, 542, 2, 505);
  (544, 544, 1, 414); (546, 562, 2, 547); (570, 570, 1, 11365);
  (571, 571, 1, 572); (573, 573, 1, 410); (574, 574, 1, 11366);
  (577, 577, 1, 578); (579, 579, 1, 384); (580, 580, 1, 649);
  (581, 581, 1, 652); (582, 590, 2, 583); (880, 882, 2, 881);
  (886, 886, 1, 887); (895, 895, 1, 1011); (902, 902, 1, 940);
  (904, 906, 1, 941); (908, 908, 1, 972); (910, 911, 1, 973);
  (913, 929, 1, 945); (931, 939, 1, 963); (975, 975, 1, 983);
  (984, 1006, 2, 985); (1012, 1012, 1, 952); (1015, 1015, 1, 1016);
  (1017, 1017, 1, 1010); (1018, 1018, 1, 1019); (1021, 1023, 1, 891);
  (1024, 1039, 1, 1104); (1040, 1071, 1, 1072); (1120, 1152, 2, 1121);
  (1162, 1214, 2, 1163); (1216, 1216, 1, 1231); (1217, 1229, 2, 1218);
  (1232, 1326, 2, 1233); (1329, 1366, 1, 1377); (4256, 4293, 1, 11520);
  (4295, 4295, 1, 11559); (4301, 4301, 1, 11565); (5024, 5103, 1, 43888);
  (5104, 5109, 1, 5112); (7312, 7354, 1, 4304); (7357, 7359, 1, 4349);
  (7680, 7828, 2, 7681); (7838, 7838, 1, 223); (7840, 7934, 2, 7841);
  (7944, 7951, 1, 7936); (7960, 7965, 1, 7952); (7976, 7983, 1, 7968);
  (7992, 7999, 1, 7984); (8008, 8013, 1, 8000); (8025, 8031, 2, 8017);
  (8040, 8047, 1, 8032); (8072, 8079, 1, 8064); (8088, 8095, 1, 8080);
  (8104, 8111, 1, 8096); (8120, 8121, 1, 8112); (8122, 8123, 1, 8048);
  (8124, 8124, 1, 8115); (8136, 8139, 1, 8050); (8140, 8140, 1, 8131);
  (8152, 8153, 1, 8144); (8154, 8155, 1, 8054); (8168, 8169, 1, 8160);
  (8170, 8171, 1, 8058); (8172, 8172, 1, 8165); (8184, 8185, 1, 8056);
  (8186, 8187, 1, 8060); (8188, 8188, 1, 8179); (8486, 8486, 1, 969);
  (8490, 8490, 1, 107); (8491, 8491, 1, 229); (8498, 8498, 1, 8526);
  (8544, 8559, 1, 8560); (8579, 8579, 1, 8580); (9398, 9423, 1, 9424);
  (11264, 11311, 1, 11312); (11360, 11360, 1, 11361); (11362, 11362, 1, 619);
  (11363, 11363, 1, 7549); (11364, 11364, 1, 637); (11367, 11371, 2, 11368);
  (11373, 11373, 1, 593); (11374, 11374, 1, 625); (11375, 11375, 1, 592);
  (11376, 11376, 1, 594); (11378, 11378, 1, 11379); (11381, 11381, 1, 11382);
  (11390, 11391, 1, 575); (11392, 11490, 2, 11393); (11499, 11501, 2, 11500);
  (11506, 11506, 1, 11507); (42560, 42604, 2, 42561);
  (42624, 42650, 2, 42625); (42786, 42798, 2, 42787);
  (42802, 42862, 2, 42803); (42873, 42875, 2, 42874);
  (42877, 42877, 1, 7545); (42878, 42886, 2, 42879);
  (42891, 42891, 1, 42892); (42893, 42893, 1, 613); (42896, 42898, 2, 42897);
  (42902, 42920, 2, 42903); (42922, 42922, 1, 614); (42923, 42923, 1, 604);
  (42924, 42924, 1, 609); (42925, 42925, 1, 620); (42926, 42926, 1, 618);
  (42928, 42928, 1, 670); (42929, 42929, 1, 647); (42930, 42930, 1, 669);
  (42931, 42931, 1, 43859); (42932, 42946, 2, 42933);
  (42948, 42948, 1, 42900); (42949, 42949, 1, 642); (42950, 42950, 1, 7566);
  (42951, 42953, 2, 42952); (42960, 42960, 1, 42961);
  (42966, 42968, 2, 42967); (42997, 42997, 1, 42998);
  (65313, 65338, 1, 65345); (66560, 66599, 1, 66600);
  (66736, 66771, 1, 66776); (66928, 66938, 1, 66967);
  (66940, 66954, 1, 66979); (66956, 66962, 1, 66995);
  (66964, 66965, 1, 67003); (68736, 68786, 1, 68800);
  (71840, 71871, 1, 71872); (93760, 93791, 1, 93792);
  (125184, 125217, 1, 125218)].

Definition lower_special : list (N * list N) := [
  (304, [105; 775])].

Definition title_runs : list (N * N * N * N) := [
  (97, 122, 1, 65); (181, 181, 1, 924); (224, 246, 1, 192);
  (248, 254, 1, 216); (255, 255, 1, 376); (257, 303, 2, 256);
  (305, 305, 1, 73); (307, 311, 2, 306); (314, 328, 2, 313);
  (331, 375, 2, 330); (378, 382, 2, 377); (383, 383, 1, 83);
  (384, 384, 1, 579); (387, 389, 2, 386); (392, 392, 1, 391);
  (396, 396, 1, 395); (402, 402, 1, 401); (405, 405, 1, 502);
  (409, 409, 1, 408); (410, 410, 1, 573); (414, 414, 1, 544);
  (417, 421, 2, 416); (424, 424, 1, 423); (429, 429, 1, 428);
  (432, 432, 1, 431); (436, 438, 2, 435); (441, 441, 1, 440);
  (445, 445, 1, 444); (447, 447, 1, 503); (452, 452, 1, 453);
  (454, 454, 1, 453); (455, 455, 1, 456); (457, 457, 1, 456);
  (458, 458, 1, 459); (460, 476, 2, 459); (477, 477, 1, 398);
  (479, 495, 2, 478); (497, 497, 1, 498); (499, 501, 2, 498);
  (505, 543, 2, 504); (547, 563, 2, 546); (572, 572, 1, 571);
  (575, 576, 1, 11390); (578, 578, 1, 577); (583, 591, 2, 582);
  (592, 592, 1, 11375); (593, 593, 1, 11373); (594, 594, 1, 11376);
  (595, 595, 1, 385); (596, 596, 1, 390); (598, 599, 1, 393);
  (601, 601, 1, 399); (603, 603, 1, 400); (604, 604, 1, 42923);
  (608, 608, 1, 403); (609, 609, 1, 42924); (611, 611, 1, 404);
  (613, 613, 1, 42893); (614, 614, 1, 42922); (616, 616, 1, 407);
  (617, 617, 1, 406); (618, 618, 1, 42926); (619, 619, 1, 11362);
  (620, 620, 1, 42925); (623, 623, 1, 412); (625, 625, 1, 11374);
  (626, 626, 1, 413); (629, 629, 1, 415); (637, 637, 1, 11364);
  (640, 640, 1, 422); (642, 642, 1, 42949); (643, 643, 1, 425);
  (647, 647, 1, 42929); (648, 648, 1, 430); (649, 649, 1, 580);
  (650, 651, 1, 433); (652, 652, 1, 581); (658, 658, 1, 439);
  (669, 669, 1, 42930); (670, 670, 1, 42928); (837, 837, 1, 921);
  (881, 883, 2, 880); (887, 887, 1, 886); (891, 893, 1, 1021);
  (940, 940, 1, 902); (941, 943, 1, 904); (945, 961, 1, 913);
  (962, 962, 1, 931); (963, 971, 1, 931); (972, 972, 1, 908);
  (973, 974, 1, 910); (976, 976, 1, 914); (977, 977, 1, 920);
  (981, 981, 1, 934); (982, 982, 1, 928); (983, 983, 1, 975);
  (985, 1007, 2, 984); (1008, 1008, 1, 922); (1009, 1009, 1, 929);
  (1010, 1010, 1, 1017); (1011, 1011, 1, 895); (1013, 1013, 1, 917);
  (1016, 1016, 1, 1015); (1019, 1019, 1, 1018); (1072, 1103, 1, 1040);
  (1104, 1119, 1, 1024); (1121, 1153, 2, 1120); (1163, 1215, 2, 1162);
  (1218, 1230, 2, 1217); (1231, 1231, 1, 1216); (1233, 1327, 2, 1232);
  (1377, 1414, 1, 1329); (5112, 5117, 1, 5104); (7296, 7296, 1, 1042);
  (7297, 7297, 1, 1044); (7298, 7298, 1, 1054); (7299, 7300, 1, 1057);
  (7301, 7301, 1, 1058); (7302, 7302, 1, 1066); (7303, 7303, 1, 1122);
  (7304, 7304, 1, 42570); (7545, 7545, 1, 42877); (7549, 7549, 1, 11363);
  (7566, 7566, 1, 42950); (7681, 7829, 2, 7680); (7835, 7835, 1, 7776);
  (7841, 7935, 2, 7840); (7936, 7943, 1, 7944); (7952, 7957, 1, 7960);
  (7968, 7975, 1, 7976); (7984, 7991, 1, 7992); (8000, 8005, 1, 8008);
  (8017, 8023, 2, 8025); (8032, 8039, 1, 8040); (8048, 8049, 1, 8122);
  (8050, 8053, 1, 8136); (8054, 8055, 1, 8154); (8056, 8057, 1, 8184);
  (8058, 8059, 1, 8170); (8060, 8061, 1, 8186); (8064, 8071, 1, 8072);
  (8080, 8087, 1, 8088); (8096, 8103, 1, 8104); (8112, 8113, 1, 8120);
  (8115, 8115, 1, 8124); (8126, 8126, 1, 921); (8131, 8131, 1, 8140);
  (8144, 8145, 1, 8152); (8160, 8161, 1, 8168); (8165, 8165, 1, 8172);
  (8179, 8179, 1, 8188); (8526, 8526, 1, 8498); (8560, 8575, 1, 8544);
  (8580, 8580, 1, 8579); (9424, 9449, 1, 9398); (11312, 11359, 1, 11264);
  (11361, 11361, 1, 11360); (11365, 11365, 1, 570); (11366, 11366, 1, 574);
  (11368, 11372, 2, 11367); (11379, 11379, 1, 11378);
  (11382, 11382, 1, 11381); (11393, 11491, 2, 11392);
  (11500, 11502, 2, 11499); (11507, 11507, 1, 11506);
  (11520, 11557, 1, 4256); (11559, 11559, 1, 4295); (11565, 11565, 1, 4301);
  (42561, 42605, 2, 42560); (42625, 42651, 2, 42624);
  (42787, 42799, 2, 42786); (42803, 42863, 2, 42802);
  (42874, 42876, 2, 42873); (42879, 42887, 2, 42878);
  (42892, 42892, 1, 42891); (42897, 42899, 2, 42896);
  (42900, 42900, 1, 42948); (42903, 42921, 2, 42902);
  (42933, 42947, 2, 42932); (42952, 42954, 2, 42951);
  (42961, 42961, 1, 42960); (42967, 42969, 2, 42966);
  (42998, 42998, 1, 42997); (43859, 43859, 1, 42931);
  (43888, 43967, 1, 5024); (65345, 65370, 1, 65313);
  (66600, 66639, 1, 66560); (66776, 66811, 1, 66736);
  (66967, 66977, 1, 66928); (66979, 66993, 1, 66940);
  (66995, 67001, 1, 66956); (67003, 67004, 1, 66964);
  (68800, 68850, 1, 68736); (71872, 71903, 1, 71840);
  (93792, 93823, 1, 93760); (125218, 125251, 1, 125184)].

Definition title_special : list (N * list N) := [
  (223, [83; 115]); (329, [700; 78]); (496, [74; 780]);
  (912, [921; 776; 769]); (944, [933; 776; 769]); (1415, [1333; 1410]);
  (7830, [72; 817]); (7831, [84; 776]); (7832, [87; 778]); (7833, [89; 778]);
  (7834, [65; 702]); (8016, [933; 787]); (8018, [933; 787; 768]);
  (8020, [933; 787; 769]); (8022, [933; 787; 834]); (8114, [8122; 837]);
  (8116, [902; 837]); (8118, [913; 834]); (8119, [913; 834; 837]);
  (8130, [8138; 837]); (8132, [905; 837]); (8134, [919; 834]);
  (8135, [919; 834; 837]); (8146, [921; 776; 768]); (8147, [921; 776; 769]);
  (8150, [921; 834]); (8151, [921; 776; 834]); (8162, [933; 776; 768]);
  (8163, [933; 776; 769]); (8164, [929; 787]); (8166, [933; 834]);
  (8167, [933; 776; 834]); (8178, [8186; 837]); (8180, [911; 837]);
  (8182, [937; 834]); (8183, [937; 834; 837]); (64256, [70; 102]);
  (64257, [70; 105]); (64258, [70; 108]); (64259, [70; 102; 105]);
  (64260, [70; 102; 108]); (64261, [83; 116]); (64262, [83; 116]);
  (64275, [1348; 1398]); (64276, [1348; 1381]); (64277, [1348; 1387]);
  (64278, [1358; 1398]); (64279, [1348; 1389])].

Definition in_ranges (rs : list (N * N)) (c : N) : bool :=
  existsb (fun '(lo, hi) => (lo <=? c) && (c <=? hi)) rs.

Definition case_lookup (runs : list (N * N * N * N)) (special : list (N * list N))
    (c : N) : list N :=
  match find (fun '(a, _) => a =? c) special with
  | Some (_, l) => l
  | None =>
      match find (fun '(lo, hi, st, _) =>
                    (lo <=? c) && (c <=? hi) && (N.modulo (c - lo) st =? 0)) runs with
      | Some (lo, _, _, t) => [t + (c - lo)]
      | None => [c]
      end
  end.

Definition is_cased (c : N) : bool := in_ranges cased_ranges c.
Definition is_case_ignorable (c : N) : bool := in_ranges case_ignorable_ranges c.
Definition lower_full (c : N) : list N := case_lookup lower_runs lower_special c.
Definition title_full (c : N) : list N := case_lookup title_runs title_special c.

(** [handle_capital_sigma]: the lower case of a capital sigma (U+03A3) is
    the final sigma (U+03C2) when, skipping case-ignorable characters, a
    cased character comes before it and none comes after it; else U+03C3.
    [before] holds the characters before it, nearest first. *)
Definition handle_capital_sigma (before after : ustr) : N :=
  match drop_while is_case_ignorable before with
  | c :: _ =>
      if is_cased c then
        match drop_while is_case_ignorable after with
        | [] => 962
        | c' :: _ => if is_cased c' then 963 else 962
        end
      else 963
  | [] => 963
  end.

(** [lower_ucs4] *)
Definition lower_ucs4 (before : ustr) (c : N) (after : ustr) : list N :=
  if c =? 931 then [handle_capital_sigma before after] else lower_full c.

(** [s.lower()]: CPython's [do_lower]. *)
Fixpoint lower_from (before s : ustr) : ustr :=
  match s with
  | [] => []
  | c :: s' => lower_ucs4 before c s' ++ lower_from (c :: before) s'
  end.

Definition py_lower (s : ustr) : ustr := lower_from [] s.

(** [s.title()]: CPython's [do_title]; a character following a cased one
    is lowered ([lower_ucs4]), any other is title-cased. *)
Fixpoint title_from (previous_is_cased : bool) (before s : ustr) : ustr :=
  match s with
  | [] => []
  | c :: s' =>
      (if previous_is_cased then lower_ucs4 before c s' else title_full c)
        ++ title_from (is_cased c) (c :: before) s'
  end.

Definition py_title (s : ustr) : ustr := title_from false [] s.

#[global] Arguments is_cased : simpl never.
#[global] Arguments is_case_ignorable : simpl never.
#[global] Arguments lower_full : simpl never.
#[global] Arguments title_full : simpl never.

(** [sub in s] *)
Fixpoint py_contains (sub s : ustr) : bool :=
  py_startswith s sub ||
  match s with
  | [] => false
  | _ :: s' => py_contains sub s'
  end.

(** [str(n)] for a non-negative int. *)
Fixpoint digits_of (fuel : nat) (n : N) (acc : ustr) : ustr :=
  match fuel with
  | O => acc
  | S f =>
      let acc' := (48 + n mod 10) :: acc in
      if n <? 10 then acc' else digits_of f (n / 10) acc'
  end.

Definition py_str_int (n : N) : ustr := digits_of (S (N.size_nat n)) n [].

(** ** [float(s)] on a [str] *)

(** The float a string denotes.  [PFin neg m e] is the double nearest to
    [(-1)^neg * m * 10^e] (correctly rounded, as CPython's [_Py_dg_strtod]
    rounds; magnitudes beyond the double range become infinities and tiny
    ones become zeros of the same sign). *)
Inductive pyfloat :=
| PFin (neg : bool) (m : N) (e : Z)
| PInf (neg : bool)
| PNaN (neg : bool).

(** [x <= 0] on the double: NaN compares false, [-inf] and every negative or
    zero value true.  A positive [m * 10^e] rounds to [0.0] exactly when it is
    at most [2^-1075], half the least subnormal (a tie rounds to even, 0). *)
Definition py_le_zero (x : pyfloat) : bool :=
  match x with
  | PNaN _ => false
  | PInf neg => neg
  | PFin true _ _ => true
  | PFin false m e =>
      (m =? 0) ||
      match e with
      | Z.neg p => (Z.of_N m * 2 ^ 1075 <=? 10 ^ Z.pos p)%Z
      | _ => false
      end
  end.

Definition is_ascii_digit (c : N) : bool := (48 <=? c) && (c <=? 57).

(** [Py_ISSPACE]: the C locale's whitespace. *)
Definition py_isspace_ascii (c : N) : bool := (c =? 32) || ((9 <=? c) && (c <=? 13)).

(** [_PyUnicode_TransformDecimalAndSpaceToASCII]: an ASCII string is
    returned as it is; otherwise Unicode whitespace becomes a space, a
    decimal digit its ASCII digit, and the first other non-ASCII character
    (or DEL) is replaced by ['?'] which ends the string. *)
Fixpoint transform_chars (s : ustr) : ustr :=
  match s with
  | [] => []
  | c :: s' =>
      if c <? 127 then c :: transform_chars s'
      else if py_isspace_char c then 32 :: transform_chars s'
      else match py_todecimal c with
           | Some d => (48 + d) :: transform_chars s'
           | None => [63]
           end
  end.

Definition transform_decimal_and_space (s : ustr) : ustr :=
  if forallb (fun c => c <? 128) s then s else transform_chars s.

(** The copy loop of [_Py_string_to_number_with_underscores]: an underscore
    must follow a digit and precede one; it is dropped.  The loop stops at a
    NUL, which is then an error ([p != last]). *)
Fixpoint strip_underscores (prev : N) (s : ustr) : option ustr :=
  match s with
  | [] => if prev =? 95 then None else Some []
  | c :: s' =>
      if c =? 0 then None
      else if c =? 95 then
        (if is_ascii_digit prev then strip_underscores c s' else None)
      else if (prev =? 95) && negb (is_ascii_digit c) then None
      else option_map (cons c) (strip_underscores c s')
  end.

(** [_Py_string_to_number_with_underscores]: without an underscore the
    string goes to the inner parser unchanged (a NUL in it then fails the
    parser, which never accepts one). *)
Definition remove_underscores (s : ustr) : option ustr :=
  if existsb (N.eqb 95) s then strip_underscores 0 s else Some s.

Fixpoint span_digits (s : ustr) : ustr * ustr :=
  match s with
  | c :: s' =>
      if is_ascii_digit c then let '(d, r) := span_digits s' in (c :: d, r)
      else ([], s)
  | [] => ([], [])
  end.

Definition digits_value (d : ustr) : N := fold_left (fun acc c => acc * 10 + (c - 48)) d 0.

Definition parse_sign (s : ustr) : bool * ustr :=
  match s with
  | 45 :: r => (true, r)
  | 43 :: r => (false, r)
  | _ => (false, s)
  end.

(** [_Py_dg_strtod]: optional sign, digits with an optional point, at least
    one digit, then an optional exponent, which is given up when it has no
    digit.  [None] when nothing is consumed, else the value and the rest.
    (The bound of 10^9 digits of the source is beyond any message.) *)
Definition py_strtod (s : ustr) : option (pyfloat * ustr) :=
  let '(neg, r) := parse_sign s in
  let '(ip, r1) := span_digits r in
  let '(fp, r2) :=
    match r1 with
    | 46 :: r' => span_digits r'
    | _ => ([], r1)
    end in
  match ip ++ fp with
  | [] => None
  | ds =>
      let m := digits_value ds in
      let e0 := (- Z.of_nat (length fp))%Z in
      match r2 with
      | c :: r3 =>
          if (c =? 101) || (c =? 69) then
            let '(eneg, r4) := parse_sign r3 in
            let '(ed, r5) := span_digits r4 in
            match ed with
            | [] => Some (PFin neg m e0, r2)
            | _ =>
                let ev := Z.of_N (digits_value ed) in
                Some (PFin neg m (e0 + if eneg then - ev else ev)%Z, r5)
            end
          else Some (PFin neg m e0, r2)
      | [] => Some (PFin neg m e0, r2)
      end
  end.

(** [Py_TOLOWER]: ASCII lower case (the string has been made ASCII by
    [_PyUnicode_TransformDecimalAndSpaceToASCII]). *)
Definition py_tolower (c : N) : N :=
  if (65 <=? c) && (c <=? 90) then c + 32 else c.

Definition ascii_lower_eqb (s : ustr) (w : string) : bool :=
  ustr_eqb (map py_tolower s) (s2u w).

(** [_Py_parse_inf_or_nan]: sign, then "inf", "infinity" or "nan" in any
    case. *)
Definition py_parse_inf_or_nan (s : ustr) : option (pyfloat * ustr) :=
  let '(neg, r) := parse_sign s in
  if ascii_lower_eqb (take 3 r) "inf" then
    let r' := drop 3 r in
    if ascii_lower_eqb (take 5 r') "inity" then Some (PInf neg, drop 5 r')
    else Some (PInf neg, r')
  else if ascii_lower_eqb (take 3 r) "nan" then Some (PNaN neg, drop 3 r)
  else None.

(** [float_from_string_inner]: strip [Py_ISSPACE] at both ends, refuse an
    empty string, and require the parse ([_PyOS_ascii_strtod], which tries
    inf/nan when strtod consumes nothing) to reach the end. *)
Definition float_from_string_inner (s : ustr) : option pyfloat :=
  let t := rev (drop_while py_isspace_ascii (rev (drop_while py_isspace_ascii s))) in
  match t with
  | [] => None
  | _ =>
      match py_strtod t with
      | Some (x, []) => Some x
      | Some (_, _) => None
      | None =>
          match py_parse_inf_or_nan t with
          | Some (x, []) => Some x
          | _ => None
          end
      end
  end.

(** [float(s)]: [None] is the [ValueError]. *)
Definition py_float (s : ustr) : option pyfloat :=
  match remove_underscores (transform_decimal_and_space s) with
  | Some t => float_from_string_inner t
  | None => None
  end.

(** ** Session state and outputs *)

Open Scope string_scope.
Open Scope N_scope.

(** The conversation states: the [range(23)] tuple of the source. *)
Inductive state :=
| LANG_SELECT | MENU
| PARTNER_MAIN_OPTIONS | PARTNER_GIVE_OPTIONS | PARTNER_PARTNER_OPTIONS
| PARTNER_DETAILS_NAME | PARTNER_DETAILS_PHONE | PARTNER_DETAILS_COUNTRY
| PARTNER_PAYMENT_METHOD | PARTNER_AMOUNT | PARTNER_PAYMENT_PROOF
| PRAYER_NAME | PRAYER_INPUT
| MEMBER_NAME | MEMBER_PHONE | MEMBER_COUNTRY
| SCHOOL_NAME | SCHOOL_PHONE | SCHOOL_COUNTRY
| MASTER_NAME | MASTER_PHONE | MASTER_COUNTRY
| CONTACT_ADMIN_INFO.

Global Instance state_eq_dec : EqDecision state.
Proof. solve_decision. Defined.

(** A value of [context.user_data] or a cell of an appended row: a [str];
    [VAmount x] is the [str] [f"{x:.2f}"]. *)
Inductive value :=
| VStr (s : ustr)
| VAmount (x : pyfloat).

(** The text of a reply. *)
Inductive text :=
| TKey (key : string) (lang : ustr)          (* translations[key][lang] *)
| TLangPrompt                                (* translations["lang_prompt"] *)
| TInvalid (prompt_key : string) (lang : ustr)
    (* translations["invalid_input"][lang] + "\n" + translations[prompt_key][lang] *)
| TDaily (msg : ustr)                        (* the message of get_daily_message *)
| TLiteral (s : string)
| TAdminContact (lang : ustr) (admin_id : N) (* admin_contact_info .format(admin_id=...) *)
| TStats (counts : list N)
| TStatsApiError (header_hint : bool) (detail : ustr).

(** The reply markup of a reply. *)
Inductive keyboard :=
| KNone
| KLanguages                         (* one button per LANGUAGES entry *)
| KMainMenu (lang : ustr)            (* build_main_menu(lang) *)
| KPartnerMain (lang : ustr)         (* Give Options, Partner Options, back *)
| KGiveOptions (lang : ustr)         (* partner_give_options + back_to_partner_categories *)
| KPartnerOptions (lang : ustr)      (* partner_partner_options + back_to_partner_categories *)
| KPayment (contact_admin : bool) (lang : ustr).
    (* [contact_admin_button] when [contact_admin], then back_to_partner_categories *)

Inductive output :=
| OAnswer                            (* query.answer() *)
| OClearMarkup                       (* query.edit_message_reply_markup(None) *)
| OReply (t : text) (kb : keyboard). (* reply_text *)

(** What a handler can see and change: [context.user_data], the entry of
    [user_languages] for the user, the messages sent and the rows appended
    to the worksheets. *)
Record mstate := MState {
  ms_data : gmap string value;
  ms_lang : option ustr;
  ms_out : list output;
  ms_rows : list (string * list value)
}.

(** Exceptions raised by handlers: a missing translation, a failed [float()]
    or the positivity check, a failed [append_row]. *)
Inductive exn := KeyError | ValueError | AppendError | AttributeError.

Definition M (A : Type) : Type := mstate -> (exn + A) * mstate.

Global Instance M_ret : MRet M := fun A x ms => (inr x, ms).
Global Instance M_bind : MBind M := fun A B f m ms =>
  match m ms with
  | (inl ex, ms') => (inl ex, ms')
  | (inr x, ms') => f x ms'
  end.

Definition raise {A} (ex : exn) : M A := fun ms => (inl ex, ms).

(** [try: m except Exception: h] *)
Definition try_all {A} (m : M A) (h : exn -> M A) : M A := fun ms =>
  match m ms with
  | (inl ex, ms') => h ex ms'
  | r => r
  end.

(** [try: m except ValueError: h] *)
Definition try_value {A} (m : M A) (h : M A) : M A := fun ms =>
  match m ms with
  | (inl ValueError, ms') => h ms'
  | r => r
  end.

Definition emit (o : output) : M unit := fun ms =>
  (inr tt, MState (ms_data ms) (ms_lang ms) (ms_out ms ++ [o]) (ms_rows ms)).

Definition reply (t : text) (kb : keyboard) : M unit := emit (OReply t kb).

Definition get_data : M (gmap string value) := fun ms => (inr (ms_data ms), ms).

(** [context.user_data[k] = v] *)
Definition set_data (k : string) (v : value) : M unit := fun ms =>
  (inr tt, MState (<[k := v]> (ms_data ms)) (ms_lang ms) (ms_out ms) (ms_rows ms)).

(** [context.user_data.clear()] *)
Definition clear_data : M unit := fun ms =>
  (inr tt, MState ∅ (ms_lang ms) (ms_out ms) (ms_rows ms)).

(** [user_languages[user_id] = l] *)
Definition set_lang (l : ustr) : M unit := fun ms =>
  (inr tt, MState (ms_data ms) (Some l) (ms_out ms) (ms_rows ms)).

(** [get_lang]: [user_languages.get(user_id, "en")]. *)
Definition get_lang : M ustr := fun ms => (inr (default (s2u "en") (ms_lang ms)), ms).

(** The language codes every table of [translations] has. *)
Definition valid_lang (l : ustr) : bool :=
  existsb (ustr_eqb l) [s2u "en"; s2u "es"; s2u "fr"; s2u "pt"].
Arguments valid_lang : simpl never.

(** [translations[key][lang]]; every key the handlers use has the four
    languages, so the lookup fails exactly on another language code. *)
Definition tr (key : string) (lang : ustr) : M text :=
  if valid_lang lang then mret (TKey key lang) else raise KeyError.

Definition tr_invalid (prompt_key : string) (lang : ustr) : M text :=
  if valid_lang lang then mret (TInvalid prompt_key lang) else raise KeyError.

(** A keyboard whose labels are looked up in [translations] for [lang]. *)
Definition kb (k : ustr -> keyboard) (lang : ustr) : M keyboard :=
  if valid_lang lang then mret (k lang) else raise KeyError.

(** [translations["buttons"][lang]]: the labels of the main menu, which are
    also the callback data of its buttons. *)
Definition buttons_of (lang : ustr) : list ustr := (
  if ustr_eqb lang (s2u "en") then
    [[128100] ++ s2u " Member Sign-Up";
     [128591] ++ s2u " Prayer Request";
     [128218] ++ s2u " School of Discipleship";
     [127891] ++ s2u " Master Class";
     [128176] ++ s2u " Give or Partner";
     [128202] ++ s2u " Admin Dashboard"]
  else if ustr_eqb lang (s2u "es") then
    [[128100] ++ s2u " Registro de miembro";
     [128591] ++ s2u " Solicitud de oraci" ++ [243] ++ s2u "n";
     [128218] ++ s2u " Escuela de discipulado";
     [127891] ++ s2u " Clase Magistral";
     [128176] ++ s2u " Donar o Asociarse";
     [128202] ++ s2u " Panel de Administraci" ++ [243] ++ s2u "n"]
  else if ustr_eqb lang (s2u "fr") then
    [[128100] ++ s2u " Devenir membre";
     [128591] ++ s2u " Demande de pri" ++ [232] ++ s2u "re";
     [128218] ++ s2u " " ++ [201] ++ s2u "cole de discipolat";
     [127891] ++ s2u " Cours magistral";
     [128176] ++ s2u " Donner ou Partenaire";
     [128202] ++ s2u " Tableau de bord Admin"]
  else if ustr_eqb lang (s2u "pt") then
    [[128100] ++ s2u " Inscrever-se como membro";
     [128591] ++ s2u " Pedido de ora" ++ [231] ++ [227] ++ s2u "o";
     [128218] ++ s2u " Escola de discipulado";
     [127891] ++ s2u " Aula Magna";
     [128176] ++ s2u " Dar ou Parceiro";
     [128202] ++ s2u " Painel de Administra" ++ [231] ++ [227] ++ s2u "o"]
  else [])%list.

Definition buttons (lang : ustr) : M (list ustr) :=
  if valid_lang lang then mret (buttons_of lang) else raise KeyError.

(** The environment of one update. *)
Inductive stats_result :=
| StatsCounts (record_counts : list N)   (* len(get_all_records()) of the five sheets *)
| StatsApiError (header_hint : bool) (detail : ustr)
| StatsOtherError.

Record env := Env {
  e_uid : N;                  (* update.effective_user.id *)
  e_time : ustr;              (* datetime.now().strftime("%Y-%m-%d %H:%M:%S") *)
  e_append_ok : bool;         (* whether worksheet.append_row succeeds *)
  e_daily : ustr;             (* what get_daily_message returns *)
  e_stats : stats_result
}.

(** [ADMIN_ID] with its default. *)
Definition ADMIN_ID : N := 7159818971.

(** [sheet_obj.append_row(row)] *)
Definition append_row (e : env) (sheet : string) (row : list value) : M unit := fun ms =>
  if e_append_ok e then
    (inr tt, MState (ms_data ms) (ms_lang ms) (ms_out ms) (ms_rows ms ++ [(sheet, row)]))
  else (inl AppendError, ms).

(** ** [build_main_menu] *)

(** An [InlineKeyboardButton(text, callback_data=data)]. *)
Record button := Button { b_text : ustr; b_callback : ustr }.

(** The loop [for i in range(0, len(buttons), 2)]: a row with
    [buttons[i]], and [buttons[i + 1]] when [i + 1 < len(buttons)]; [fuel]
    bounds the iterations. *)
Fixpoint menu_rows (buttons : list ustr) (i fuel : nat) : list (list button) :=
  match fuel with
  | O => []
  | S f =>
      if Nat.ltb i (length buttons) then
        let b := nth i buttons [] in
        let row := (Button b b ::
                      (if Nat.ltb (i + 1) (length buttons)
                       then [Button (nth (i + 1) buttons []) (nth (i + 1) buttons [])]
                       else []))%list in
        row :: menu_rows buttons (i + 2) f
      else []
  end.

(** [build_main_menu(lang)]: the rows of the keyboard [KMainMenu lang];
    [None] is the [KeyError] of [translations["buttons"][lang]]. *)
Definition build_main_menu (lang : ustr) : option (list (list button)) :=
  if valid_lang lang then
    Some (menu_rows (buttons_of lang) 0 (length (buttons_of lang)))
  else None.

(** ** [get_daily_message] *)

Section DailyMessage.

(** A cell of a record of [get_all_records()] (a string or a number, as
    gspread converts it): its truth value, its [str()] and whether it is
    equal ([==]) to a given [str]. *)
Variable cell : Type.
Variable cell_truthy : cell -> bool.
Variable cell_str : cell -> ustr.
Variable cell_eq_str : cell -> ustr -> bool.

(** A record: the dict from the header row to the cells of one row. *)
Definition record := list (string * cell).

(** [record.get(k)] *)
Definition record_get (r : record) (k : string) : option cell :=
  option_map snd (find (fun kv => bool_decide (kv.1 = k)) r).

(** The truth value and the [str()] of [record.get(k, "")]. *)
Definition get_truthy (c : option cell) : bool :=
  match c with Some x => cell_truthy x | None => false end.
Definition get_str (c : option cell) : ustr :=
  match c with Some x => cell_str x | None => [] end.

Definition scripture_header : ustr := ([128214] ++ s2u " *Daily Scripture:*" ++ [10])%list.
Definition message_header : ustr := ([128161] ++ s2u " *Motivational Message:*" ++ [10])%list.

(** The [if scripture and message / elif scripture / elif message] of the
    loop body: [None] when it does not return. *)
Definition daily_text (scripture message : option cell) : option ustr :=
  if get_truthy scripture && get_truthy message then
    Some (scripture_header ++ get_str scripture ++ [10; 10] ++ message_header ++ get_str message)%list
  else if get_truthy scripture then Some (scripture_header ++ get_str scripture)%list
  else if get_truthy message then Some (message_header ++ get_str message)%list
  else None.

(** [record.get("Date") == today_str] *)
Definition is_today (today : ustr) (r : record) : bool :=
  match record_get r "Date" with
  | Some c => cell_eq_str c today
  | None => false
  end.

(** The [for record in records] loop; [None] when it ends without a
    [return]. *)
Fixpoint daily_loop (today : ustr) (records : list record) : option ustr :=
  match records with
  | [] => None
  | r :: rs =>
      if is_today today r then
        match daily_text (record_get r "Scripture") (record_get r "Motivational Message") with
        | Some t => Some t
        | None => daily_loop today rs
        end
      else daily_loop today rs
  end.

(** [get_daily_message()]: [records] is [None] when
    [daily_messages_sheet.get_all_records()] raises (both [except] branches
    return [""]); [""] also when the loop finds nothing. *)
Definition get_daily_message (today : ustr) (records : option (list record)) : ustr :=
  match records with
  | None => []
  | Some rs => default [] (daily_loop today rs)
  end.

(** A record with neither a scripture nor a message: both cells are
    falsy or missing. *)
Definition no_content (r : record) : Prop :=
  get_truthy (record_get r "Scripture") = false /\
  get_truthy (record_get r "Motivational Message") = false.

End DailyMessage.

(** ** Handlers *)

Section Handlers.

Variable e : env.

(** [start] *)
Definition start : M state :=
  (if ustr_eqb (e_daily e) [] then mret tt else reply (TDaily (e_daily e)) KNone) ;;
  reply TLangPrompt KLanguages ;;
  mret LANG_SELECT.

(** [language_selected] *)
Definition language_selected (lang_code : ustr) : M state :=
  emit OAnswer ;;
  set_lang lang_code ;;
  t ← tr "welcome" lang_code ; reply t KNone ;;
  t ← tr "menu" lang_code ; k ← kb KMainMenu lang_code ; reply t k ;;
  mret MENU.

(** [show_partner_main_options] *)
Definition show_partner_main_options : M state :=
  emit OAnswer ;;
  lang ← get_lang ;
  emit OClearMarkup ;;
  k ← kb KPartnerMain lang ;
  t ← tr "partner_main_options_prompt" lang ; reply t k ;;
  mret PARTNER_MAIN_OPTIONS.

(** [text == buttons[i]] *)
Definition is_button (bs : list ustr) (i : nat) (text : ustr) : bool :=
  bool_decide (bs !! i = Some text).

(** The admin branch: [try ... except ... finally: return MENU]; the
    [return] in [finally] discards any exception. *)
Definition admin_stats (lang : ustr) : M state := fun ms =>
  let body : M unit :=
    match e_stats e with
    | StatsCounts ns => reply (TStats (map (fun n => n - 1) ns)) KNone
    | StatsApiError hint d => reply (TStatsApiError hint d) KNone
    | StatsOtherError => t ← tr "error_general" lang ; reply t KNone
    end in
  (inr MENU, snd (body ms)).

(** [handle_menu] *)
Definition handle_menu (text : ustr) : M state :=
  emit OAnswer ;;
  lang ← get_lang ;
  bs ← buttons lang ;
  emit OClearMarkup ;;
  if is_button bs 0 text then
    t ← tr "prompt_name" lang ; reply t KNone ;; mret MEMBER_NAME
  else if is_button bs 1 text then
    t ← tr "prompt_name" lang ; reply t KNone ;; mret PRAYER_NAME
  else if is_button bs 2 text then
    t ← tr "scripture_discipleship" lang ; reply t KNone ;;
    t ← tr "prompt_name" lang ; reply t KNone ;; mret SCHOOL_NAME
  else if is_button bs 3 text then
    t ← tr "scripture_masterclass" lang ; reply t KNone ;;
    t ← tr "prompt_name" lang ; reply t KNone ;; mret MASTER_NAME
  else if is_button bs 4 text then
    show_partner_main_options
  else if is_button bs 5 text then
    if negb (e_uid e =? ADMIN_ID) then
      t ← tr "access_denied" lang ; reply t KNone ;; mret MENU
    else admin_stats lang
  else if ustr_eqb text (s2u "BACK_TO_MENU") then
    t ← tr "menu" lang ; k ← kb KMainMenu lang ; reply t k ;; mret MENU
  else
    t ← tr "unknown_option" lang ; reply t KNone ;; mret MENU.

(** [ask_input]: store the text (when there is one) and ask the next
    question.  [text] is [update.message.text]: [None] when
    [update.message] is [None] (an edited message), and then nothing is
    stored; the prompt goes through [update.effective_message]. *)
Definition ask_input (text : option ustr) (key prompt_key : string) (next_state : state) : M state :=
  lang ← get_lang ;
  (match text with
   | Some t => if ustr_eqb t [] then mret tt else set_data key (VStr t)
   | None => mret tt
   end) ;;
  t ← tr prompt_key lang ; reply t KNone ;;
  mret next_state.

(** The row of [save_to_sheet]:
    [[user_id] + [context.user_data.get(k, "") for k in keys] + [timestamp]]. *)
Definition sheet_row (data : gmap string value) (keys : list string) : list value :=
  (VStr (py_str_int (e_uid e)) :: map (fun k => default (VStr []) (data !! k)) keys
    ++ [VStr (e_time e)])%list.

(** Lines 477-479 of [save_to_sheet] (and 517-519 of
    [save_prayer_request]): show the menu, clear [user_data], go to [MENU]. *)
Definition back_to_menu (lang : ustr) : M state :=
  t ← tr "menu" lang ; k ← kb KMainMenu lang ; reply t k ;;
  clear_data ;;
  mret MENU.

(** [save_to_sheet] *)
Definition save_to_sheet (sheet : string) (keys : list string) (success_message_key : string) : M state :=
  lang ← get_lang ;
  data ← get_data ;
  try_all
    (append_row e sheet (sheet_row data keys) ;;
     t ← tr success_message_key lang ; reply t KNone)
    (fun _ => t ← tr "error_general" lang ; reply t KNone) ;;
  back_to_menu lang.

(** [set_member_phone], [set_school_phone], [set_master_phone],
    [set_partner_details_phone]. *)
Definition set_phone (this_state : state) (key : string) (next_state : state) (phone_number : ustr) : M state :=
  if negb (py_startswith phone_number (s2u "+") && py_isdigit (py_slice1 phone_number)) then
    lang ← get_lang ;
    t ← tr_invalid "prompt_phone" lang ; reply t KNone ;;
    mret this_state
  else ask_input (Some phone_number) key "prompt_country" next_state.

(** [set_member_country], [set_school_country], [set_master_country]. *)
Definition set_country (key sheet : string) (keys : list string) (success_message_key : string) (text : ustr) : M state :=
  set_data key (VStr text) ;;
  save_to_sheet sheet keys success_message_key.

Definition member_keys : list string := ["member_name"; "member_phone"; "member_country"].
Definition school_keys : list string := ["school_name"; "school_phone"; "school_country"].
Definition master_keys : list string := ["master_name"; "master_phone"; "master_country"].
Definition partner_keys : list string :=
  ["partner_type"; "partner_name"; "partner_phone"; "partner_country"; "partner_amount";
   "payment_proof_file_id"].

(** [save_prayer_request] *)
Definition save_prayer_request (prayer_text : ustr) : M state :=
  lang ← get_lang ;
  data ← get_data ;
  let prayer_name := default (VStr (s2u "N/A")) (data !! "prayer_name") in
  try_all
    (append_row e "Prayers" [VStr (py_str_int (e_uid e)); prayer_name; VStr prayer_text; VStr (e_time e)] ;;
     t ← tr "prayer_thankyou" lang ; reply t KNone)
    (fun _ => t ← tr "error_general" lang ; reply t KNone) ;;
  back_to_menu lang.

(** The category choice shared by the three partner menus: store it as
    [partner_type] and ask for the name. *)
Definition choose_partner_type (selected_option lang : ustr) : M state :=
  set_data "partner_type" (VStr selected_option) ;;
  t ← tr "prompt_name" lang ; reply t KNone ;;
  mret PARTNER_DETAILS_NAME.

(** [handle_partner_main_selection] *)
Definition handle_partner_main_selection (selected_option : ustr) : M state :=
  emit OAnswer ;;
  lang ← get_lang ;
  emit OClearMarkup ;;
  if ustr_eqb selected_option (s2u "BACK_TO_MENU") then
    t ← tr "menu" lang ; k ← kb KMainMenu lang ; reply t k ;; mret MENU
  else if ustr_eqb selected_option (s2u "SHOW_GIVE_OPTIONS") then
    k ← kb KGiveOptions lang ;
    reply (TLiteral "Please select a giving option:") k ;; mret PARTNER_GIVE_OPTIONS
  else if ustr_eqb selected_option (s2u "SHOW_PARTNER_OPTIONS") then
    k ← kb KPartnerOptions lang ;
    reply (TLiteral "Please select a partnership option:") k ;; mret PARTNER_PARTNER_OPTIONS
  else choose_partner_type selected_option lang.

(** [handle_partner_give_selection] and [handle_partner_partner_selection]
    (the same code). *)
Definition handle_partner_option_selection (selected_option : ustr) : M state :=
  emit OAnswer ;;
  lang ← get_lang ;
  emit OClearMarkup ;;
  if ustr_eqb selected_option (s2u "BACK_TO_PARTNER_CATEGORIES") then show_partner_main_options
  else choose_partner_type selected_option lang.

(** The test of [set_partner_details_country]:
    ["south africa" in country.lower()]. *)
Definition is_domestic (country : ustr) : bool :=
  py_contains (s2u "south africa") (py_lower country).

(** [set_partner_details_country] *)
Definition set_partner_details_country (text : ustr) : M state :=
  set_data "partner_country" (VStr (py_title (py_strip text))) ;;
  lang ← get_lang ;
  data ← get_data ;
  let country := match data !! "partner_country" with Some (VStr c) => c | _ => [] end in
  let domestic := is_domestic country in
  payment_message ← tr (if domestic then "payment_sa" else "payment_international") lang ;
  k ← kb (KPayment (negb domestic)) lang ;
  reply payment_message k ;;
  t ← tr "prompt_amount" lang ; reply t KNone ;;
  mret PARTNER_AMOUNT.

(** [handle_contact_admin_button] *)
Definition handle_contact_admin_button : M state :=
  emit OAnswer ;;
  lang ← get_lang ;
  emit OClearMarkup ;;
  (if valid_lang lang then reply (TAdminContact lang ADMIN_ID) KNone else raise KeyError) ;;
  t ← tr "menu" lang ; k ← kb KMainMenu lang ; reply t k ;;
  mret MENU.

(** [set_partner_amount] *)
Definition set_partner_amount (amount_text : ustr) : M state :=
  lang ← get_lang ;
  try_value
    (match py_float amount_text with
     | None => raise ValueError
     | Some amount =>
         if py_le_zero amount then raise ValueError
         else
           set_data "partner_amount" (VAmount amount) ;;
           t ← tr "prompt_payment_proof" lang ; reply t KNone ;;
           mret PARTNER_PAYMENT_PROOF
     end)
    (t ← tr_invalid "prompt_amount" lang ; reply t KNone ;; mret PARTNER_AMOUNT).

(** [set_partner_payment_proof]: [file_id] is [photo[-1].file_id], else the
    document's, else absent. *)
Definition set_partner_payment_proof (file_id : option ustr) : M state :=
  lang ← get_lang ;
  match file_id with
  | None => t ← tr "upload_proof_error" lang ; reply t KNone ;; mret PARTNER_PAYMENT_PROOF
  | Some f =>
      set_data "payment_proof_file_id" (VStr f) ;;
      save_to_sheet "Partners" partner_keys "partner_thankyou"
  end.

(** [error_handler]: a reply in the user's language; an exception raised in
    it is only logged. *)
Definition error_handler : M unit :=
  lang ← get_lang ; t ← tr "error_general" lang ; reply t KNone.

End Handlers.

(** ** The [ConversationHandler] of [main] *)

(** An update for the participant.  For an edited message
    [update.edited_message] is set and [update.message] is [None]; the
    [MessageHandler] filters and the default filter of [CommandHandler]
    ([filters.UpdateType.MESSAGES]) accept it, looking at
    [update.effective_message]. *)
Inductive event :=
| ECallback (data : ustr)         (* a callback query with query.data *)
| EText (text : ustr)             (* a text message whose first entity is no bot command *)
| ECommand (command : ustr)       (* a text message starting with the bot command /command *)
| EPhoto (file_ids : list ustr)   (* a photo message: the file ids of its sizes, largest last *)
| EDocument (file_id : ustr)      (* a document message *)
| EEditedText (text : ustr)       (* the same messages, edited *)
| EEditedCommand (command : ustr)
| EEditedPhoto (file_ids : list ustr)
| EEditedDocument (file_id : ustr)
| EOther.                         (* any other update (sticker, ...) *)

(** An edited message. *)
Definition is_edited (ev : event) : bool :=
  match ev with
  | EEditedText _ | EEditedCommand _ | EEditedPhoto _ | EEditedDocument _ => true
  | _ => false
  end.

(** [filters.TEXT & ~filters.COMMAND]: the text of a text message that is no
    command ([filters.TEXT] wants a non-empty text). *)
Definition plain_text (ev : event) : option ustr :=
  match ev with
  | EText t => if ustr_eqb t [] then None else Some t
  | _ => None
  end.

(** [filters.TEXT & ~filters.COMMAND] on [update.effective_message], with
    what the handler reads as [update.message.text]: [Some t] for a new
    message, [None] for an edited one ([update.message] is [None]). *)
Definition text_message (ev : event) : option (option ustr) :=
  match ev with
  | EText t => if ustr_eqb t [] then None else Some (Some t)
  | EEditedText t => if ustr_eqb t [] then None else Some None
  | _ => None
  end.

(** [filters.PHOTO | filters.Document.ALL], with the file id that
    [set_partner_payment_proof] takes. *)
Definition media_file_id (ev : event) : option ustr :=
  match ev with
  | EPhoto ids => last ids
  | EDocument f => Some f
  | _ => None
  end.

(** [filters.PHOTO | filters.Document.ALL] on [update.effective_message],
    with the file id for a new message and [None] for an edited one. *)
Definition media_message (ev : event) : option (option ustr) :=
  match ev with
  | EPhoto ids => option_map Some (last ids)
  | EDocument f => Some (Some f)
  | EEditedPhoto ids => option_map (fun _ => None) (last ids)
  | EEditedDocument _ => Some None
  | _ => None
  end.

(** A handler reading [update.message] ([.text], [.photo], [.reply_text])
    when it is [None] raises [AttributeError].  Every handler of a message
    state but [ask_input] reads it before any reply or change of
    [user_data], so on an edited message ([m = None]) it raises at once. *)
Definition with_message {A B} (m : option A) (h : A -> M B) : M B :=
  match m with
  | Some x => h x
  | None => raise AttributeError
  end.

(** [start] for the update [ev]: on an edited message its first
    [update.message.reply_text] raises [AttributeError]. *)
Definition start_handler (e : env) (ev : event) : M state :=
  if is_edited ev then raise AttributeError else start e.

(** [CommandHandler("start")]: commands are compared in lower case. *)
Definition is_start_command (ev : event) : bool :=
  match ev with
  | ECommand c | EEditedCommand c => ustr_eqb (py_lower c) (s2u "start")
  | _ => false
  end.

(** [re.match("^X$", data)]: [$] also matches before a final newline. *)
Definition pattern_matches (x : string) (data : ustr) : bool :=
  ustr_eqb data (s2u x) || ustr_eqb data (s2u x ++ [10])%list.

(** The [states] table: the handler of state [s] that takes [ev], if any. *)
Definition state_handler (e : env) (s : state) (ev : event) : option (M state) :=
  match s, ev with
  | LANG_SELECT, ECallback d => Some (language_selected d)
  | MENU, ECallback d => Some (handle_menu e d)
  | PARTNER_MAIN_OPTIONS, ECallback d => Some (handle_partner_main_selection d)
  | PARTNER_GIVE_OPTIONS, ECallback d => Some (handle_partner_option_selection d)
  | PARTNER_PARTNER_OPTIONS, ECallback d => Some (handle_partner_option_selection d)
  | PARTNER_DETAILS_COUNTRY, ECallback d =>
      if pattern_matches "BACK_TO_PARTNER_CATEGORIES" d
      then Some (handle_partner_main_selection d) else None
  | PARTNER_PAYMENT_PROOF, _ =>
      match media_message ev with
      | Some m => Some (with_message m (fun f => set_partner_payment_proof e (Some f)))
      | None => None
      end
  | CONTACT_ADMIN_INFO, ECallback d =>
      if pattern_matches "CONTACT_ADMIN" d then Some handle_contact_admin_button else None
  | _, _ =>
      match text_message ev with
      | None => None
      | Some m =>
          match s with
          | PARTNER_DETAILS_NAME => Some (ask_input m "partner_name" "prompt_phone" PARTNER_DETAILS_PHONE)
          | PARTNER_DETAILS_PHONE => Some (with_message m (set_phone PARTNER_DETAILS_PHONE "partner_phone" PARTNER_DETAILS_COUNTRY))
          | PARTNER_DETAILS_COUNTRY => Some (with_message m set_partner_details_country)
          | PARTNER_AMOUNT => Some (with_message m set_partner_amount)
          | PRAYER_NAME => Some (ask_input m "prayer_name" "prompt_prayer" PRAYER_INPUT)
          | PRAYER_INPUT => Some (with_message m (save_prayer_request e))
          | MEMBER_NAME => Some (ask_input m "member_name" "prompt_phone" MEMBER_PHONE)
          | MEMBER_PHONE => Some (with_message m (set_phone MEMBER_PHONE "member_phone" MEMBER_COUNTRY))
          | MEMBER_COUNTRY =>
              Some (with_message m (set_country e "member_country" "Members" member_keys "member_signup_success"))
          | SCHOOL_NAME => Some (ask_input m "school_name" "prompt_phone" SCHOOL_PHONE)
          | SCHOOL_PHONE => Some (with_message m (set_phone SCHOOL_PHONE "school_phone" SCHOOL_COUNTRY))
          | SCHOOL_COUNTRY =>
              Some (with_message m (set_country e "school_country" "School of Discipleship" school_keys "school_signup_success"))
          | MASTER_NAME => Some (ask_input m "master_name" "prompt_phone" MASTER_PHONE)
          | MASTER_PHONE => Some (with_message m (set_phone MASTER_PHONE "master_phone" MASTER_COUNTRY))
          | MASTER_COUNTRY =>
              Some (with_message m (set_country e "master_country" "Master Class" master_keys "masterclass_signup_success"))
          | _ => None
          end
      end
  end.

(** [fallbacks]: [CommandHandler("start", start)], then
    [MessageHandler(filters.TEXT | filters.PHOTO | filters.Document.ALL, start)];
    both run [start]. *)
Definition fallback (e : env) (ev : event) : option (M state) :=
  if is_start_command ev then Some (start_handler e ev)
  else match ev with
       | ECommand _ | EDocument _ | EEditedCommand _ | EEditedDocument _ =>
           Some (start_handler e ev)
       | EText t | EEditedText t =>
           if ustr_eqb t [] then None else Some (start_handler e ev)
       | EPhoto ids | EEditedPhoto ids =>
           if bool_decide (ids = []) then None else Some (start_handler e ev)
       | _ => None
       end.

(** The conversation of the participant: its state ([None] before the
    entry point) and what the handlers see. *)
Record config := Config { c_state : option state; c_ms : mstate }.

(** A handler's result becomes the new state; an exception keeps the state
    and runs [error_handler]. *)
Definition run_handler (h : M state) (c : config) : config :=
  match h (c_ms c) with
  | (inr s', ms') => Config (Some s') ms'
  | (inl _, ms') => Config (c_state c) (snd (error_handler ms'))
  end.

(** One update through the [ConversationHandler] (no re-entry): the entry
    point outside a conversation; inside, the handlers of the state, then the
    fallbacks; an update none of them takes is not handled. *)
Definition step (e : env) (c : config) (ev : event) : config :=
  match c_state c with
  | None => if is_start_command ev then run_handler (start_handler e ev) c else c
  | Some s =>
      match state_handler e s ev with
      | Some h => run_handler h c
      | None =>
          match fallback e ev with
          | Some h => run_handler h c
          | None => c
          end
      end
  end.

Definition init_config : config := Config None (MState ∅ None [] []).

Inductive reachable : config -> Prop :=
| reachable_init : reachable init_config
| reachable_step e c ev : reachable c -> reachable (step e c ev).

(** Running a sequence of updates. *)
Fixpoint run (evs : list (env * event)) (c : config) : config :=
  match evs with
  | [] => c
  | (e, ev) :: evs' => run evs' (step e c ev)
  end.

(** ** Commits *)

(** The updates that complete a flow: the last answer of a flow in its last
    state. *)
Definition commit_event (s : state) (ev : event) : bool :=
  match s with
  | MEMBER_COUNTRY | SCHOOL_COUNTRY | MASTER_COUNTRY | PRAYER_INPUT =>
      bool_decide (is_Some (plain_text ev))
  | PARTNER_PAYMENT_PROOF => bool_decide (is_Some (media_file_id ev))
  | _ => false
  end.





(** The commits through [save_to_sheet]: the sheet, the keys of the row and
    the key the committing update stores. *)
Definition sheet_table (s : state) : option (string * list string * string) :=
  match s with
  | MEMBER_COUNTRY => Some ("Members", member_keys, "member_country")
  | SCHOOL_COUNTRY => Some ("School of Discipleship", school_keys, "school_country")
  | MASTER_COUNTRY => Some ("Master Class", master_keys, "master_country")
  | PARTNER_PAYMENT_PROOF => Some ("Partners", partner_keys, "payment_proof_file_id")
  | _ => None
  end.

(** The states a handler of state [s] returns, read off the handlers of the
    [states] table (the fallbacks return [LANG_SELECT]). *)
Definition next_states (s : state) : list state :=
  match s with
  | LANG_SELECT => [MENU]
  | MENU => [MEMBER_NAME; PRAYER_NAME; SCHOOL_NAME; MASTER_NAME; PARTNER_MAIN_OPTIONS; MENU]
  | PARTNER_MAIN_OPTIONS =>
      [MENU; PARTNER_GIVE_OPTIONS; PARTNER_PARTNER_OPTIONS; PARTNER_DETAILS_NAME]
  | PARTNER_GIVE_OPTIONS | PARTNER_PARTNER_OPTIONS =>
      [PARTNER_MAIN_OPTIONS; PARTNER_DETAILS_NAME]
  | PARTNER_DETAILS_NAME => [PARTNER_DETAILS_PHONE]
  | PARTNER_DETAILS_PHONE => [PARTNER_DETAILS_PHONE; PARTNER_DETAILS_COUNTRY]
  | PARTNER_DETAILS_COUNTRY => [PARTNER_AMOUNT; PARTNER_DETAILS_NAME]
  | PARTNER_PAYMENT_METHOD => []
  | PARTNER_AMOUNT => [PARTNER_AMOUNT; PARTNER_PAYMENT_PROOF]
  | PARTNER_PAYMENT_PROOF => [MENU]
  | CONTACT_ADMIN_INFO => [MENU]
  | PRAYER_NAME => [PRAYER_INPUT]
  | PRAYER_INPUT => [MENU]
  | MEMBER_NAME => [MEMBER_PHONE]
  | MEMBER_PHONE => [MEMBER_PHONE; MEMBER_COUNTRY]
  | MEMBER_COUNTRY => [MENU]
  | SCHOOL_NAME => [SCHOOL_PHONE]
  | SCHOOL_PHONE => [SCHOOL_PHONE; SCHOOL_COUNTRY]
  | SCHOOL_COUNTRY => [MENU]
  | MASTER_NAME => [MASTER_PHONE]
  | MASTER_PHONE => [MASTER_PHONE; MASTER_COUNTRY]
  | MASTER_COUNTRY => [MENU]
  end.

(** The states whose only handler is a [MessageHandler] (text, or photo
    and document for the payment proof). *)
Definition message_only_state (s : state) : bool :=
  match s with
  | PARTNER_DETAILS_NAME | PARTNER_DETAILS_PHONE | PARTNER_AMOUNT | PARTNER_PAYMENT_PROOF
  | PRAYER_NAME | PRAYER_INPUT | MEMBER_NAME | MEMBER_PHONE | MEMBER_COUNTRY
  | SCHOOL_NAME | SCHOOL_PHONE | SCHOOL_COUNTRY | MASTER_NAME | MASTER_PHONE
  | MASTER_COUNTRY => true
  | _ => false
  end.

(** The states no handler returns. *)
Definition dead_state (s : state) : bool :=
  match s with CONTACT_ADMIN_INFO | PARTNER_PAYMENT_METHOD => true | _ => false end.

(** The characters of a plain decimal numeral: ['.'] and the ASCII
    digits (46 to 57). *)
Definition digit_or_point (c : N) : Prop := 46 <= c <= 57.

(** ** Sample participants and conversations *)

(** A participant who is not the admin, with a working sheet. *)
Definition e_user : env :=
  Env 42 (s2u "2025-01-01 10:00:00") true [] (StatsCounts [0; 0; 0; 0; 0]).


Definition ev_start : event := ECommand (s2u "start").
Definition ev_en : event := ECallback (s2u "en").

(** The [i]-th button of the English main menu, pressed. *)
Definition ev_menu (i : nat) : event := ECallback (default [] (buttons_of (s2u "en") !! i)).

Definition ev_text (s : string) : event := EText (s2u s).

Definition as_user (evs : list event) : list (env * event) := map (fun ev => (e_user, ev)) evs.

(** /start, English, Member Sign-Up, a name and a phone number: the
    conversation waits for the country. *)
Definition member_until_country : config :=
  run (as_user [ev_start; ev_en; ev_menu 0; ev_text "Ann"; ev_text "+27821234567"]) init_config.

(** /start, English, Member Sign-Up: the conversation waits for the name. *)
Definition member_until_name : config :=
  run (as_user [ev_start; ev_en; ev_menu 0]) init_config.

(** The partner flow up to the country question. *)
Definition partner_until_country : config :=
  run (as_user [ev_start; ev_en; ev_menu 4; ECallback (s2u "SHOW_GIVE_OPTIONS");
                ECallback (s2u "GIVE_TITHE"); ev_text "Ann"; ev_text "+27821234567"]) init_config.

(** The partner flow up to the amount question. *)
Definition partner_until_amount : config :=
  step e_user partner_until_country (ev_text "South Africa").

(** /start, English, Member Sign-Up and a name: the conversation waits for
    the phone number. *)
Definition member_until_phone : config :=
  step e_user member_until_name (ev_text "Ann").

(** After [member_until_phone], /start, English and the Prayer Request
    button. *)
Definition prayer_after_restart : config :=
  run (as_user [ev_start; ev_en; ev_menu 1]) member_until_phone.

(** /start, English, Prayer Request: the conversation waits for the name. *)
Definition prayer_until_name : config :=
  run (as_user [ev_start; ev_en; ev_menu 1]) init_config.

(** The prayer flow after the name ["Ann"]: it waits for the prayer. *)
Definition prayer_until_input : config :=
  step e_user prayer_until_name (ev_text "Ann").

(** The prayer flow after an edit of an earlier message in the name state:
    it waits for the prayer, with no name stored. *)
Definition prayer_after_edit : config :=
  step e_user prayer_until_name (EEditedText (s2u "Ann")).

(** * Properties *)

(** ** Reasoning about handlers *)

(** [get_lang]'s value on a state. *)
Definition lang_of (ms : mstate) : ustr := default (s2u "en") (ms_lang ms).

(** A handler keeps the user's language entry and, when it returns, returns
    a value satisfying [P]. *)
Definition sound {A} (P : A -> Prop) (m : M A) : Prop :=
  forall ms, ms_lang (snd (m ms)) = ms_lang ms /\ (forall x, fst (m ms) = inr x -> P x).

Lemma sound_bind {A B} (P : B -> Prop) (m : M A) (f : A -> M B) :
  sound (fun _ => True) m -> (forall x, sound P (f x)) -> sound P (mbind f m).
Proof.
  intros Hm Hf ms. unfold mbind, M_bind.
  destruct (Hm ms) as [Hl _].
  destruct (m ms) as [[ex|x] ms'] eqn:E; simpl in *.
  - split; [done | discriminate].
  - destruct (Hf x ms') as [Hl' HP]. split; [congruence | done].
Qed.

Lemma sound_ret {A} (P : A -> Prop) (x : A) : P x -> sound P (mret x).
Proof. intros HP ms. split; [done | intros y [= <-]; done]. Qed.

Lemma sound_raise {A} (P : A -> Prop) ex : sound P (raise ex).
Proof. intros ms. split; [done | discriminate]. Qed.

Lemma sound_try_all {A} (P : A -> Prop) m h :
  sound P m -> (forall ex, sound P (h ex)) -> sound P (try_all m h).
Proof.
  intros Hm Hh ms. unfold try_all.
  destruct (Hm ms) as [Hl HP].
  destruct (m ms) as [[ex|x] ms'] eqn:E; simpl in *.
  - destruct (Hh ex ms') as [Hl' HP']. split; [congruence | done].
  - split; [done | done].
Qed.

Lemma sound_try_value {A} (P : A -> Prop) m h :
  sound P m -> sound P h -> sound P (try_value m h).
Proof.
  intros Hm Hh ms. unfold try_value.
  destruct (Hm ms) as [Hl HP].
  destruct (m ms) as [[[] |x] ms'] eqn:E; simpl in *; try (split; done).
  destruct (Hh ms') as [Hl' HP']. split; [congruence | done].
Qed.

Lemma sound_emit o : sound (fun _ => True) (emit o).
Proof. intros ms. split; done. Qed.
Lemma sound_reply t k : sound (fun _ => True) (reply t k).
Proof. intros ms. split; done. Qed.
Lemma sound_set_data k v : sound (fun _ => True) (set_data k v).
Proof. intros ms. split; done. Qed.
Lemma sound_clear_data : sound (fun _ => True) clear_data.
Proof. intros ms. split; done. Qed.
Lemma sound_get_data : sound (fun _ => True) get_data.
Proof. intros ms. split; done. Qed.
Lemma sound_get_lang : sound (fun _ => True) get_lang.
Proof. intros ms. split; done. Qed.
Lemma sound_tr k l : sound (fun _ => True) (tr k l).
Proof. unfold tr. destruct (valid_lang l); [apply sound_ret | apply sound_raise]; done. Qed.
Lemma sound_tr_invalid k l : sound (fun _ => True) (tr_invalid k l).
Proof. unfold tr_invalid. destruct (valid_lang l); [apply sound_ret | apply sound_raise]; done. Qed.
Lemma sound_kb k l : sound (fun _ => True) (kb k l).
Proof. unfold kb. destruct (valid_lang l); [apply sound_ret | apply sound_raise]; done. Qed.
Lemma sound_buttons l : sound (fun _ => True) (buttons l).
Proof. unfold buttons. destruct (valid_lang l); [apply sound_ret | apply sound_raise]; done. Qed.
Lemma sound_append_row e s r : sound (fun _ => True) (append_row e s r).
Proof. intros ms. unfold append_row. destruct (e_append_ok e); split; done. Qed.

Create HintDb sound_db.
#[local] Hint Resolve sound_emit sound_reply sound_set_data sound_clear_data sound_get_data
  sound_get_lang sound_tr sound_tr_invalid sound_kb sound_buttons sound_append_row
  sound_raise : sound_db.

Ltac sound_tac :=
  repeat first
    [ apply sound_bind; [| intros ? ]
    | apply sound_try_value
    | apply sound_try_all; [| intros ?]
    | solve [auto with sound_db]
    | apply sound_ret
    | match goal with
      | |- sound _ (if ?b then _ else _) => destruct b
      | |- sound _ (match ?x with _ => _ end) => destruct x
      end ].

Lemma sound_start e : sound (fun s => s = LANG_SELECT) (start e).
Proof. unfold start. sound_tac; done. Qed.

Lemma sound_show_partner_main_options :
  sound (fun s => s = PARTNER_MAIN_OPTIONS) show_partner_main_options.
Proof. unfold show_partner_main_options. sound_tac; done. Qed.

Lemma sound_admin_stats e l : sound (fun s => s = MENU) (admin_stats e l).
Proof.
  intros ms. split; [| intros x [= <-]; done].
  unfold admin_stats; simpl. destruct (e_stats e); try done.
  unfold tr. destruct (valid_lang l); done.
Qed.

Lemma sound_back_to_menu l : sound (fun s => s = MENU) (back_to_menu l).
Proof. unfold back_to_menu. sound_tac; done. Qed.

Lemma sound_save_to_sheet e sh ks k : sound (fun s => s = MENU) (save_to_sheet e sh ks k).
Proof. unfold save_to_sheet. sound_tac; done. Qed.

Lemma sound_weaken {A} (P Q : A -> Prop) m : sound P m -> (forall x, P x -> Q x) -> sound Q m.
Proof. intros Hm HPQ ms. destruct (Hm ms) as [Hl HP]. split; [done | naive_solver]. Qed.

(** Every handler but [language_selected] keeps the language, and only the
    handler of [PRAYER_NAME] returns [PRAYER_INPUT]. *)
Lemma state_handler_sound e s ev h :
  state_handler e s ev = Some h -> s <> LANG_SELECT ->
  sound (fun s' => s' = PRAYER_INPUT -> s = PRAYER_NAME) h.
Proof.
  intros Hh Hs.
  destruct s, ev; simpl in Hh; repeat case_match; simplify_eq; try congruence;
    unfold handle_menu, handle_partner_main_selection, handle_partner_option_selection,
      choose_partner_type, set_partner_details_country, set_partner_amount,
      set_partner_payment_proof, save_prayer_request, set_phone, set_country, ask_input,
      handle_contact_admin_button, with_message;
    sound_tac; try done;
    solve [ eapply sound_weaken; [apply sound_admin_stats | intros ? ? ?; congruence] ].
Qed.

Lemma sound_start_handler e ev : sound (fun s => s = LANG_SELECT) (start_handler e ev).
Proof. unfold start_handler. destruct (is_edited ev); [apply sound_raise | apply sound_start]. Qed.

Lemma fallback_start e ev h : fallback e ev = Some h -> h = start_handler e ev.
Proof. unfold fallback. repeat case_match; congruence. Qed.

Lemma fallback_sound e ev h : fallback e ev = Some h -> sound (fun s' => s' = LANG_SELECT) h.
Proof.
  unfold fallback. intros Hh. repeat case_match; simplify_eq; apply sound_start_handler.
Qed.

Ltac unfold_monad :=
  cbv [mbind M_bind mret M_ret raise try_all try_value emit reply get_data set_data
       clear_data set_lang get_lang append_row] in *.

Lemma start_ok e ms :
  start e ms = (inr LANG_SELECT, snd (start e ms)) /\
  ms_data (snd (start e ms)) = ms_data ms /\ ms_lang (snd (start e ms)) = ms_lang ms.
Proof.
  unfold start. unfold_monad. destruct ms; simpl. destruct (ustr_eqb (e_daily e) []); simpl; repeat split.
Qed.

Lemma error_handler_keeps ms :
  ms_data (snd (error_handler ms)) = ms_data ms /\ ms_lang (snd (error_handler ms)) = ms_lang ms.
Proof.
  unfold error_handler, tr. unfold_monad. destruct ms; simpl.
  destruct (valid_lang _); simpl; repeat split.
Qed.

Lemma language_selected_inr d ms x ms' :
  language_selected d ms = (inr x, ms') -> valid_lang d = true /\ ms_lang ms' = Some d.
Proof.
  unfold language_selected, tr, kb. unfold_monad. destruct ms; simpl.
  destruct (valid_lang d); simpl; intros; simplify_eq; done.
Qed.

(** Evaluate a handler on a state whose language [l] is known to be valid. *)
Ltac crunch Hl :=
  repeat progress (simpl in *; try rewrite Hl).

Lemma save_prayer_request_ok e t ms l :
  ms_lang ms = Some l -> valid_lang l = true ->
  exists ms', save_prayer_request e t ms = (inr MENU, ms').
Proof.
  intros Hms Hl. unfold save_prayer_request, back_to_menu, tr, kb. unfold_monad.
  destruct ms; simpl in *; subst. crunch Hl.
  destruct (e_append_ok e); crunch Hl; eauto.
Qed.

(** ** The invariant of reachable conversations *)

(** Outside [LANG_SELECT] the user has a supported language. *)
Definition inv (c : config) : Prop :=
  forall s, c_state c = Some s -> s <> LANG_SELECT ->
    exists l, ms_lang (c_ms c) = Some l /\ valid_lang l = true.

Lemma inv_init : inv init_config.
Proof. intros s; simpl; discriminate. Qed.

Lemma inv_step e c ev : inv c -> inv (step e c ev).
Proof.
  destruct c as [st ms]. intros H1. unfold step; simpl in *.
  destruct st as [s|].
  - destruct (state_handler e s ev) as [h|] eqn:Hh.
    + destruct (decide (s = LANG_SELECT)) as [->|Hs].
      * (* language selection *)
        destruct ev; simpl in Hh; repeat case_match; try discriminate. injection Hh as <-.
        unfold run_handler; simpl.
        destruct (language_selected data ms) as [[ex|x] ms'] eqn:E.
        -- intros s' [= <-]; congruence.
        -- pose proof (language_selected_inr _ _ _ _ E) as [Hv Hl].
           intros s' _ _; simpl; eauto.
      * pose proof (state_handler_sound e s ev h Hh Hs ms) as [Hlang _].
        unfold run_handler; simpl.
        destruct (h ms) as [[ex|x] ms'] eqn:E; simpl in *.
        -- destruct (error_handler_keeps ms') as [Hd Hl'].
           intros s' [= <-] _; simpl. rewrite Hl', Hlang. apply (H1 s); done.
        -- intros s' [= <-] _; simpl. rewrite Hlang. apply (H1 s); done.
    + destruct (fallback e ev) as [h|] eqn:Hf; [| done].
      pose proof (fallback_sound e ev h Hf ms) as [Hlang Hret].
      unfold run_handler; simpl.
      destruct (h ms) as [[ex|x] ms'] eqn:E; simpl in *.
      * destruct (error_handler_keeps ms') as [Hd Hl'].
        intros s' [= <-] Hn; simpl. rewrite Hl', Hlang. apply (H1 s); done.
      * specialize (Hret x eq_refl). subst x. intros s' [= <-]; congruence.
  - destruct (is_start_command ev); [| done].
    unfold run_handler, start_handler; simpl. destruct (is_edited ev); [done|].
    destruct (start_ok e ms) as [Hs _]. rewrite Hs.
    intros s' [= <-]; congruence.
Qed.

Lemma reachable_inv c : reachable c -> inv c.
Proof. induction 1; [apply inv_init | by apply inv_step]. Qed.

Lemma reachable_lang c s :
  reachable c -> c_state c = Some s -> s <> LANG_SELECT ->
  exists l, ms_lang (c_ms c) = Some l /\ valid_lang l = true.
Proof. intros Hr Hs Hn. exact (reachable_inv c Hr s Hs Hn). Qed.

Ltac unfold_handlers :=
  unfold step, run_handler, state_handler, fallback, set_country, save_to_sheet,
    save_prayer_request, set_partner_payment_proof, back_to_menu, tr, tr_invalid, kb,
    ask_input, set_phone, set_partner_amount, set_partner_details_country, error_handler,
    start_handler, with_message, start in *;
  unfold_monad.

Lemma run_reachable evs c : reachable c -> reachable (run evs c).
Proof.
  revert c; induction evs as [|[e ev] evs IH]; intros c Hc; simpl; [done|].
  apply IH. by constructor.
Qed.

Lemma init_reachable : reachable init_config.
Proof. constructor. Qed.

Ltac solve_reachable :=
  unfold member_until_phone, member_until_name, member_until_country,
    partner_until_amount, partner_until_country, prayer_after_restart,
    prayer_after_edit, prayer_until_input, prayer_until_name;
  repeat match goal with
         | |- reachable (step _ _ _) => apply reachable_step
         | |- reachable (run _ _) => apply run_reachable
         end;
  apply init_reachable.

(** * Claims *)

(** ** C1 *)



(** Evaluating a handler on a state whose facts are hypotheses of the form
    [f x = v]. *)
Ltac eval_step :=
  repeat progress (unfold_handlers; simpl in *;
    repeat match goal with
           | H : ?a = ?b |- context [?a] =>
               lazymatch a with ?f _ => idtac | ?f _ _ => idtac end;
               progress rewrite H
           end).

(** ** C2 *)




(** ** C3 *)




(** ** C4 *)




(** ** C5 *)

(** Counterexample to C5: after a restart in the middle of the member flow,
    the Prayer Request button opens the prayer flow with the member's name
    still in the fields. *)
Lemma menu_selection_keeps_fields :
  c_state prayer_after_restart = Some PRAYER_NAME /\
  ms_data (c_ms prayer_after_restart) !! "member_name" = Some (VStr (s2u "Ann")).
Proof. vm_compute. split; reflexivity. Qed.

Lemma handle_menu_keeps_data e x ms :
  ms_data (snd (handle_menu e x ms)) = ms_data ms.
Proof.
  destruct ms as [d ol out rows].
  unfold handle_menu, admin_stats, show_partner_main_options, tr, kb, buttons; unfold_monad.
  simpl. repeat (case_match; simpl in *; simplify_eq; try done).
Qed.

Lemma run_handler_keeps_data h c :
  (forall ms, ms_data (snd (h ms)) = ms_data ms) ->
  ms_data (c_ms (run_handler h c)) = ms_data (c_ms c).
Proof.
  intros Hk. unfold run_handler. specialize (Hk (c_ms c)).
  destruct (h (c_ms c)) as [[ex|s'] ms'] eqn:E; simpl in *.
  - rewrite (proj1 (error_handler_keeps ms')). exact Hk.
  - exact Hk.
Qed.

(** Claim C5 (as amended): an update in the menu state, a selection that
    opens a flow included, leaves the collected fields as they were. *)
Theorem menu_step_keeps_fields e c ev :
  c_state c = Some MENU ->
  ms_data (c_ms (step e c ev)) = ms_data (c_ms c).
Proof.
  intros Hs. unfold step. rewrite Hs.
  destruct (state_handler e MENU ev) as [h|] eqn:Eh.
  - apply run_handler_keeps_data. intros ms.
    destruct ev; simpl in Eh; simplify_eq; try apply handle_menu_keeps_data.
    all: revert Eh; case_match; case_match; intros; simplify_eq; done.
  - destruct (fallback e ev) as [h|] eqn:Ef; [|done].
    apply run_handler_keeps_data. intros ms.
    assert (h = start_handler e ev) as ->.
    { revert Ef. unfold fallback. repeat case_match; congruence. }
    unfold start_handler. destruct (is_edited ev); [reflexivity|].
    exact (proj1 (proj2 (start_ok e ms))).
Qed.

(** A witness of C5: the Prayer Request button in the menu. *)
Lemma menu_step_keeps_fields_witness :
  ms_data (c_ms (step e_user (run (as_user [ev_start; ev_en]) init_config) (ev_menu 1))) = ∅.
Proof.
  rewrite (menu_step_keeps_fields e_user (run (as_user [ev_start; ev_en]) init_config) (ev_menu 1));
    vm_compute; reflexivity.
Defined.

(** ** C6 *)




(** ** C7 *)

(** Claim C7 fails on the member flow: the country ["ghana"] is stored and
    written to the Members sheet as sent, while the partner flow stores the
    country normalised by [.strip().title()], as ["Ghana"]. *)
Theorem member_country_not_normalised :
  py_title (py_strip (s2u "ghana")) = s2u "Ghana" /\
  ms_rows (c_ms (step e_user member_until_country (ev_text "ghana"))) =
    [("Members", [VStr (s2u "42"); VStr (s2u "Ann"); VStr (s2u "+27821234567");
                  VStr (s2u "ghana"); VStr (s2u "2025-01-01 10:00:00")])] /\
  ms_data (c_ms (step e_user partner_until_country (ev_text "ghana"))) !! "partner_country"
    = Some (VStr (s2u "Ghana")).
Proof. vm_compute. split_and!; reflexivity. Qed.

(** ** C8 *)



(** ** C9 *)

(** Claim C9: the reset at the end of a flow ([back_to_menu]: the menu, then
    [context.user_data.clear()], then [MENU]) run twice in a row leaves the
    same observable state as run once: the fields are empty, the state is
    [MENU], and the language entry and the recorded rows are those of a
    single run. *)
Theorem reset_idempotent l ms :
  valid_lang l = true ->
  fst (back_to_menu l ms) = inr MENU /\
  ms_data (snd (back_to_menu l ms)) = ∅ /\
  fst (back_to_menu l (snd (back_to_menu l ms))) = fst (back_to_menu l ms) /\
  ms_data (snd (back_to_menu l (snd (back_to_menu l ms)))) = ms_data (snd (back_to_menu l ms)) /\
  ms_lang (snd (back_to_menu l (snd (back_to_menu l ms)))) = ms_lang (snd (back_to_menu l ms)) /\
  ms_rows (snd (back_to_menu l (snd (back_to_menu l ms)))) = ms_rows (snd (back_to_menu l ms)).
Proof.
  intros Hl. destruct ms as [d ol out rows].
  unfold back_to_menu, tr, kb; unfold_monad. repeat (simpl; rewrite ?Hl).
  split_and!; done.
Qed.

(** A witness of C9: English. *)
Lemma reset_idempotent_witness :
  fst (back_to_menu (s2u "en") (c_ms member_until_phone)) = inr MENU.
Proof.
  destruct (reset_idempotent (s2u "en") (c_ms member_until_phone)) as [H _];
    [vm_compute; reflexivity | exact H].
Defined.

(** ** C10 *)

(** Counterexample to C10: in the prayer flow, an edit of an earlier
    message in the name state moves on to the prayer question without
    storing a name; the committed prayer row then holds ["N/A"] for the
    missing name, not the empty string. *)
Lemma prayer_row_na :
  c_state prayer_after_edit = Some PRAYER_INPUT /\
  ms_data (c_ms prayer_after_edit) !! "prayer_name" = None /\
  ms_rows (c_ms (step e_user prayer_after_edit (ev_text "Pray"))) =
    [("Prayers", [VStr (s2u "42"); VStr (s2u "N/A"); VStr (s2u "Pray");
                  VStr (s2u "2025-01-01 10:00:00")])].
Proof. vm_compute. split_and!; reflexivity. Qed.

(** Claim C10 (as amended): a commit whose append succeeds appends one row
    that starts with the participant's id and ends with the timestamp. For
    a flow saved through [save_to_sheet], the row between them holds, for
    each key the flow declares, the collected value, and the empty string
    for a key with no value; the prayer flow's row holds the stored prayer
    name, or ["N/A"] when none is stored, and the prayer text. *)
Theorem commit_row_shape e c ev s :
  reachable c -> c_state c = Some s -> commit_event s ev = true -> e_append_ok e = true ->
  exists sheet mid,
    ms_rows (c_ms (step e c ev)) =
      (ms_rows (c_ms c) ++
       [(sheet, VStr (py_str_int (e_uid e)) :: mid ++ [VStr (e_time e)])])%list /\
    match sheet_table s with
    | Some (sh, keys, key) =>
        sheet = sh /\ exists v,
          mid = map (fun k => default (VStr []) (<[key := v]> (ms_data (c_ms c)) !! k)) keys
    | None =>
        sheet = "Prayers" /\ exists t,
          plain_text ev = Some t /\
          mid = [default (VStr (s2u "N/A")) (ms_data (c_ms c) !! "prayer_name"); VStr t]
    end.
Proof.
  intros Hr Hs Hc Ha.
  assert (s <> LANG_SELECT) as Hn by (intros ->; discriminate).
  destruct (reachable_lang c s Hr Hs Hn) as (l & Hms & Hl).
  destruct c as [st [d ol out rows]]; simpl in *; subst st ol.
  destruct s; try discriminate; destruct ev as [x|t|x|ids|f|?|?|?|?|]; try discriminate.
  all: simpl in Hc.
  all: try (destruct (ustr_eqb t []) eqn:Et; [discriminate|]).
  all: try (destruct (last ids) as [fid|] eqn:El; [|discriminate]).
  all: eval_step.
  all: first
    [ eexists "Prayers", [_; VStr t]; split_and!; [reflexivity | reflexivity |];
      exists t; split_and!; reflexivity
    | eexists _, _; split; [unfold sheet_row; reflexivity|];
      split; [reflexivity|]; eexists; reflexivity ].
Qed.

(** A witness of C10: the member flow committed with ["Ghana"]. *)
Lemma commit_row_shape_witness :
  exists sheet mid,
    ms_rows (c_ms (step e_user member_until_country (ev_text "Ghana"))) =
      [(sheet, VStr (s2u "42") :: mid ++ [VStr (s2u "2025-01-01 10:00:00")])]%list.
Proof.
  destruct (commit_row_shape e_user member_until_country (ev_text "Ghana") MEMBER_COUNTRY)
    as (sheet & mid & H & _);
    [solve_reachable | vm_compute; reflexivity | vm_compute; reflexivity | reflexivity |].
  exists sheet, mid. rewrite H. vm_compute. reflexivity.
Defined.

(** * Further properties of the code *)

(** ** The conversation graph *)

Lemma ustr_eqb_true a b : ustr_eqb a b = true -> a = b.
Proof. unfold ustr_eqb. by case_bool_decide. Qed.

Lemma sound_gen_save e sh ks k (P : state -> Prop) : P MENU -> sound P (save_to_sheet e sh ks k).
Proof. intros HP. eapply sound_weaken; [apply sound_save_to_sheet | by intros ? ->]. Qed.
Lemma sound_gen_back l (P : state -> Prop) : P MENU -> sound P (back_to_menu l).
Proof. intros HP. eapply sound_weaken; [apply sound_back_to_menu | by intros ? ->]. Qed.
Lemma sound_gen_admin e l (P : state -> Prop) : P MENU -> sound P (admin_stats e l).
Proof. intros HP. eapply sound_weaken; [apply sound_admin_stats | by intros ? ->]. Qed.
Lemma sound_gen_show (P : state -> Prop) :
  P PARTNER_MAIN_OPTIONS -> sound P show_partner_main_options.
Proof. intros HP. eapply sound_weaken; [apply sound_show_partner_main_options | by intros ? ->]. Qed.

Ltac next_tac :=
  repeat first
    [ match goal with
      | |- sound _ (save_to_sheet _ _ _ _) => apply sound_gen_save
      | |- sound _ (back_to_menu _) => apply sound_gen_back
      | |- sound _ (admin_stats _ _) => apply sound_gen_admin
      | |- sound _ show_partner_main_options => apply sound_gen_show
      | |- sound _ (mbind _ _) => apply sound_bind; [| intros ?]
      | |- sound _ (try_value _ _) => apply sound_try_value
      | |- sound _ (try_all _ _) => apply sound_try_all; [| intros ?]
      | |- sound _ (mret _) => apply sound_ret
      | |- sound _ (if ?b then _ else _) => destruct b eqn:?
      | |- sound _ (match ?x with _ => _ end) => destruct x
      end
    | solve [auto with sound_db] ].

Lemma state_handler_next e s ev h :
  state_handler e s ev = Some h -> s <> LANG_SELECT ->
  sound (fun s' => s' ∈ next_states s) h.
Proof.
  intros Hh Hs.
  destruct s, ev; simpl in Hh; repeat case_match; simplify_eq; try congruence.
  all: try match goal with
       | H : pattern_matches _ _ = true |- _ =>
           unfold pattern_matches in H; apply orb_true_iff in H;
           destruct H as [H|H]; apply ustr_eqb_true in H; subst
       end.
  all: unfold handle_menu, handle_partner_main_selection, handle_partner_option_selection,
      choose_partner_type, set_partner_details_country, set_partner_amount,
      set_partner_payment_proof, save_prayer_request, set_phone, set_country, ask_input,
      handle_contact_admin_button, with_message.
  all: next_tac.
  all: try set_solver.
  all: match goal with H : ustr_eqb _ _ = true |- _ =>
         apply ustr_eqb_true in H; vm_compute in H; discriminate end.
Qed.

Lemma language_selected_menu d ms x ms' :
  language_selected d ms = (inr x, ms') -> x = MENU.
Proof.
  unfold language_selected, tr, kb. unfold_monad. destruct ms; simpl.
  destruct (valid_lang d); simpl; intros; simplify_eq; done.
Qed.

Lemma step_next e c ev s s' :
  c_state c = Some s -> c_state (step e c ev) = Some s' ->
  s' = s \/ s' = LANG_SELECT \/ s' ∈ next_states s.
Proof.
  intros Hs Hs'. unfold step in Hs'. rewrite Hs in Hs'.
  destruct (state_handler e s ev) as [h|] eqn:Eh.
  - unfold run_handler in Hs'.
    destruct (h (c_ms c)) as [[ex|x] ms'] eqn:Ehm; simpl in Hs'; simplify_eq; [by left|].
    right; right.
    destruct (decide (s = LANG_SELECT)) as [->|Hn].
    + destruct ev; simpl in Eh; repeat case_match; simplify_eq.
      apply language_selected_menu in Ehm. subst. set_solver.
    + destruct (state_handler_next e s ev h Eh Hn (c_ms c)) as [_ HP].
      apply HP. by rewrite Ehm.
  - destruct (fallback e ev) as [h|] eqn:Ef; [|simplify_eq; by left].
    unfold run_handler in Hs'.
    destruct (fallback_sound e ev h Ef (c_ms c)) as [_ HP].
    destruct (h (c_ms c)) as [[ex|x] ms'] eqn:Ehm; simpl in Hs'; simplify_eq; [by left|].
    right; left. by apply HP.
Qed.

(** Every update moves the conversation from a state [s] to [s] itself, to
    [LANG_SELECT] (the fallbacks), or to one of the states the handlers of
    [s] return ([next_states s]). *)
Theorem conversation_graph e c ev s s' :
  c_state c = Some s -> c_state (step e c ev) = Some s' ->
  s' = s \/ s' = LANG_SELECT \/ s' ∈ next_states s.
Proof. apply step_next. Qed.

Lemma conversation_graph_witness :
  c_state (step e_user member_until_phone (ev_text "+27821234567")) = Some MEMBER_COUNTRY /\
  (MEMBER_COUNTRY = MEMBER_PHONE \/ MEMBER_COUNTRY = LANG_SELECT \/
   MEMBER_COUNTRY ∈ next_states MEMBER_PHONE).
Proof.
  split; [vm_compute; reflexivity|].
  apply (conversation_graph e_user member_until_phone (ev_text "+27821234567") MEMBER_PHONE);
    vm_compute; reflexivity.
Defined.

(** No reachable conversation is ever in [CONTACT_ADMIN_INFO] or
    [PARTNER_PAYMENT_METHOD]: no handler returns them, so
    [handle_contact_admin_button] never runs. *)
Theorem dead_states_unreachable c :
  reachable c -> c_state c <> Some CONTACT_ADMIN_INFO /\ c_state c <> Some PARTNER_PAYMENT_METHOD.
Proof.
  enough (reachable c -> forall s, c_state c = Some s -> dead_state s = false) as H.
  { intros Hr. split; intros Hs; specialize (H Hr _ Hs); discriminate. }
  induction 1 as [|e c ev Hr IH]; [discriminate|].
  intros s' Hs'. destruct (c_state c) as [s|] eqn:Hs.
  - destruct (step_next e c ev s s' Hs Hs') as [->|[->|Hin]]; [by apply IH|done|].
    specialize (IH s eq_refl).
    destruct s; simpl in Hin; try discriminate;
      repeat (apply elem_of_cons in Hin as [->|Hin]; [done|]); apply elem_of_nil in Hin; done.
  - unfold step in Hs'. rewrite Hs in Hs'.
    destruct (is_start_command ev); [|congruence].
    unfold run_handler, start_handler in Hs'. destruct (is_edited ev).
    + simpl in Hs'. congruence.
    + destruct (start_ok e (c_ms c)) as [Hst _].
      rewrite Hst in Hs'. simpl in Hs'. by simplify_eq.
Qed.

(** ** The main menu *)

Lemma valid_lang_cases l :
  valid_lang l = true -> l = s2u "en" \/ l = s2u "es" \/ l = s2u "fr" \/ l = s2u "pt".
Proof.
  unfold valid_lang. simpl. rewrite !orb_true_iff.
  intros [H|[H|[H|[H|H]]]]; try discriminate; apply ustr_eqb_true in H; tauto.
Qed.

Lemma menu_rows_concat bs fuel i :
  (length bs <= i + 2 * fuel)%nat ->
  concat (menu_rows bs i fuel) = map (fun b => Button b b) (drop i bs).
Proof.
  revert i. induction fuel as [|f IH]; intros i Hle; simpl.
  - rewrite drop_ge; [done | lia].
  - destruct (Nat.ltb_spec i (length bs)) as [Hi|Hi].
    + simpl. rewrite IH by lia.
      destruct (lookup_lt_is_Some_2 bs i Hi) as [x Hx].
      rewrite (nth_lookup_Some _ _ _ _ Hx), (drop_S _ _ _ Hx). simpl. f_equal.
      destruct (Nat.ltb_spec (i + 1) (length bs)) as [Hi1|Hi1].
      * destruct (lookup_lt_is_Some_2 bs (i + 1) Hi1) as [y Hy].
        rewrite (nth_lookup_Some _ _ _ _ Hy).
        replace (S i) with (i + 1)%nat by lia. rewrite (drop_S _ _ _ Hy).
        simpl. do 2 f_equal. f_equal. lia.
      * rewrite !drop_ge by lia. done.
    + rewrite drop_ge by lia. done.
Qed.

Lemma buttons_valid_length l : valid_lang l = true -> length (buttons_of l) = 6%nat.
Proof. intros Hl. apply valid_lang_cases in Hl as [-> | [-> | [-> | ->]]]; vm_compute; reflexivity. Qed.

(** [build_main_menu(lang)] lays out the main-menu labels of a translated
    language in rows of two, in order, each button's callback data being its
    label; for any other language it raises [KeyError]. *)
Theorem main_menu_layout l :
  match build_main_menu l with
  | Some rows =>
      valid_lang l = true /\
      concat rows = map (fun b => Button b b) (buttons_of l) /\
      Forall (fun row => length row = 2%nat) rows
  | None => valid_lang l = false
  end.
Proof.
  unfold build_main_menu. destruct (valid_lang l) eqn:Hl; [|done].
  split_and!; [done | rewrite menu_rows_concat by lia; done |].
  apply valid_lang_cases in Hl as [-> | [-> | [-> | ->]]]; vm_compute; repeat constructor.
Qed.

(** Pressing one of the first five main-menu buttons of the participant's
    language opens its flow: member sign-up, prayer request, school of
    discipleship, master class, give or partner. *)
Theorem main_menu_routing e ms l i b :
  ms_lang ms = Some l -> valid_lang l = true -> buttons_of l !! i = Some b -> (i < 5)%nat ->
  fst (handle_menu e b ms) =
    inr (nth i [MEMBER_NAME; PRAYER_NAME; SCHOOL_NAME; MASTER_NAME; PARTNER_MAIN_OPTIONS] MENU).
Proof.
  intros Hms Hl Hb Hi. destruct ms as [d ol out rows]; simpl in Hms; subst ol.
  unfold handle_menu, show_partner_main_options.
  apply valid_lang_cases in Hl as [-> | [-> | [-> | ->]]].
  all: destruct i as [|[|[|[|[|i]]]]]; [..|lia].
  all: vm_compute in Hb; injection Hb; intros <-; vm_compute; reflexivity.
Qed.

Lemma main_menu_routing_witness :
  fst (handle_menu e_user (default [] (buttons_of (s2u "en") !! 1%nat))
        (MState ∅ (Some (s2u "en")) [] [])) = inr PRAYER_NAME.
Proof.
  apply (main_menu_routing e_user (MState ∅ (Some (s2u "en")) [] []) (s2u "en") 1%nat);
    [reflexivity | vm_compute; reflexivity | vm_compute; reflexivity | lia].
Defined.

#[local] Arguments is_button : simpl never.
#[local] Arguments buttons_of : simpl never.

Lemma menu_button_index l i b :
  valid_lang l = true -> buttons_of l !! i = Some b ->
  forall j, (j < 6)%nat -> is_button (buttons_of l) j b = bool_decide (j = i).
Proof.
  intros Hl Hb j Hj.
  assert (i < 6)%nat as Hi.
  { rewrite <- (buttons_valid_length l Hl). by eapply lookup_lt_Some. }
  apply valid_lang_cases in Hl as [-> | [-> | [-> | ->]]].
  all: destruct i as [|[|[|[|[|[|i]]]]]]; try lia; vm_compute in Hb; injection Hb; intros <-.
  all: destruct j as [|[|[|[|[|[|j]]]]]]; try lia; vm_compute; reflexivity.
Qed.

(** The Admin Dashboard button: a participant other than [ADMIN_ID] gets
    only the access-denied message; the admin gets exactly one reply (the
    counts, or an error message), whatever the sheets do. Either way the
    conversation stays in the menu with the fields and the rows
    unchanged. *)
Theorem admin_dashboard_button e d l out rows b :
  valid_lang l = true -> buttons_of l !! 5%nat = Some b ->
  let ms := MState d (Some l) out rows in
  fst (handle_menu e b ms) = inr MENU /\
  ms_data (snd (handle_menu e b ms)) = d /\
  ms_rows (snd (handle_menu e b ms)) = rows /\
  ms_lang (snd (handle_menu e b ms)) = Some l /\
  if e_uid e =? ADMIN_ID then
    exists t, ms_out (snd (handle_menu e b ms)) = (out ++ [OAnswer; OClearMarkup; OReply t KNone])%list
  else
    ms_out (snd (handle_menu e b ms)) =
      (out ++ [OAnswer; OClearMarkup; OReply (TKey "access_denied" l) KNone])%list.
Proof.
  intros Hl Hb ms. subst ms.
  pose proof (menu_button_index l 5 b Hl Hb) as Hj.
  unfold handle_menu, admin_stats, tr, buttons; unfold_monad; simpl.
  rewrite Hl; simpl.
  rewrite !Hj by lia; simpl.
  destruct (e_uid e =? ADMIN_ID); simpl.
  - destruct (e_stats e); simpl; split_and!; try done;
      eexists; by rewrite <- !app_assoc.
  - split_and!; try done. by rewrite <- !app_assoc.
Qed.

Lemma admin_dashboard_button_witness :
  fst (handle_menu e_user (default [] (buttons_of (s2u "en") !! 5%nat))
         (MState ∅ (Some (s2u "en")) [] [])) = inr MENU.
Proof.
  destruct (admin_dashboard_button e_user ∅ (s2u "en") [] []
              (default [] (buttons_of (s2u "en") !! 5%nat))) as [H _];
    [vm_compute; reflexivity | vm_compute; reflexivity | exact H].
Defined.

(** ** Menu callbacks and the language choice *)

(** A menu callback that is neither a main-menu label of the participant's
    language nor [BACK_TO_MENU] gets the unknown-option message and leaves
    the conversation in the menu with the fields unchanged. *)
Theorem menu_unknown_option e d l out rows text :
  valid_lang l = true -> (forall i, buttons_of l !! i <> Some text) ->
  text <> s2u "BACK_TO_MENU" ->
  handle_menu e text (MState d (Some l) out rows) =
    (inr MENU, MState d (Some l)
                 (out ++ [OAnswer; OClearMarkup; OReply (TKey "unknown_option" l) KNone])%list rows).
Proof.
  intros Hl Hn Hback.
  assert (forall j, is_button (buttons_of l) j text = false) as Hj.
  { intros j. unfold is_button. apply bool_decide_eq_false. apply Hn. }
  assert (ustr_eqb text (s2u "BACK_TO_MENU") = false) as Hb.
  { unfold ustr_eqb. by apply bool_decide_eq_false. }
  unfold handle_menu, tr, buttons; unfold_monad; simpl.
  rewrite Hl; simpl. rewrite !Hj, Hb; simpl.
  by rewrite <- !app_assoc.
Qed.

Lemma menu_unknown_option_witness :
  handle_menu e_user (s2u "HELLO") (MState ∅ (Some (s2u "en")) [] []) =
    (inr MENU, MState ∅ (Some (s2u "en"))
                 [OAnswer; OClearMarkup; OReply (TKey "unknown_option" (s2u "en")) KNone] []).
Proof.
  apply menu_unknown_option; [vm_compute; reflexivity | | vm_compute; congruence].
  intros i. destruct i as [|[|[|[|[|[|i]]]]]]; vm_compute; congruence.
Defined.

(** The language choice: a callback with a translated language code stores
    it as the participant's language, sends the welcome and the main menu in
    that language and moves to the menu; any other code is stored all the
    same, but no message can be sent (the translations have no entry for
    it, and the error handler's own lookup fails too), and the conversation
    stays in [LANG_SELECT]. The fields are unchanged either way. *)
Theorem language_choice e c d :
  c_state c = Some LANG_SELECT ->
  let c' := step e c (ECallback d) in
  ms_lang (c_ms c') = Some d /\ ms_data (c_ms c') = ms_data (c_ms c) /\
  ms_rows (c_ms c') = ms_rows (c_ms c) /\
  if valid_lang d then
    c_state c' = Some MENU /\
    ms_out (c_ms c') = (ms_out (c_ms c) ++
      [OAnswer; OReply (TKey "welcome" d) KNone; OReply (TKey "menu" d) (KMainMenu d)])%list
  else
    c_state c' = Some LANG_SELECT /\ ms_out (c_ms c') = (ms_out (c_ms c) ++ [OAnswer])%list.
Proof.
  intros Hs c'. subst c'. destruct c as [st [dt ol out rows]]; simpl in Hs; subst st.
  unfold step; simpl.
  unfold run_handler, error_handler, language_selected, tr, kb; unfold_monad; simpl.
  destruct (valid_lang d) eqn:Hd; simpl; rewrite ?Hd; simpl.
  all: split_and!; try done. by rewrite <- !app_assoc.
Qed.

Lemma language_choice_witness :
  c_state (step e_user (run (as_user [ev_start]) init_config) (ECallback (s2u "de")))
    = Some LANG_SELECT.
Proof.
  pose proof (language_choice e_user (run (as_user [ev_start]) init_config) (s2u "de")) as H.
  destruct H as (_ & _ & _ & H); [vm_compute; reflexivity|].
  revert H. vm_compute. tauto.
Defined.

(** In a state whose only handler takes messages (the name, phone,
    country, amount, payment-proof and prayer states), a button press is
    taken by no handler and no fallback: it changes nothing and gets no
    answer. So the contact-admin and back buttons sent with the payment
    instructions do nothing once the amount is asked for. *)
Theorem callback_ignored_in_message_states e c s d :
  c_state c = Some s -> message_only_state s = true ->
  step e c (ECallback d) = c.
Proof.
  intros Hs Hm. unfold step. rewrite Hs.
  destruct s; try discriminate; reflexivity.
Qed.

Lemma callback_ignored_in_message_states_witness :
  step e_user partner_until_amount (ECallback (s2u "CONTACT_ADMIN")) = partner_until_amount.
Proof.
  apply (callback_ignored_in_message_states e_user partner_until_amount PARTNER_AMOUNT);
    vm_compute; reflexivity.
Defined.

(** ** The partner flow *)

Lemma ustr_eqb_false a b : a <> b -> ustr_eqb a b = false.
Proof. intros H. unfold ustr_eqb. by apply bool_decide_eq_false. Qed.

(** Any callback of the partner menus other than their navigation buttons
    is taken as the partner category: it is stored under [partner_type] as
    it is, and the name is asked for. In the main partner menu the
    navigation buttons are [BACK_TO_MENU], [SHOW_GIVE_OPTIONS] and
    [SHOW_PARTNER_OPTIONS]; in the give and partner menus only
    [BACK_TO_PARTNER_CATEGORIES]. *)
Theorem partner_category_stored d l dt out rows :
  valid_lang l = true ->
  let ms := MState dt (Some l) out rows in
  let ms' := MState (<["partner_type" := VStr d]> dt) (Some l)
               (out ++ [OAnswer; OClearMarkup; OReply (TKey "prompt_name" l) KNone])%list rows in
  (d <> s2u "BACK_TO_MENU" -> d <> s2u "SHOW_GIVE_OPTIONS" -> d <> s2u "SHOW_PARTNER_OPTIONS" ->
   handle_partner_main_selection d ms = (inr PARTNER_DETAILS_NAME, ms')) /\
  (d <> s2u "BACK_TO_PARTNER_CATEGORIES" ->
   handle_partner_option_selection d ms = (inr PARTNER_DETAILS_NAME, ms')).
Proof.
  intros Hl ms ms'. subst ms ms'. split.
  - intros H1 H2 H3.
    unfold handle_partner_main_selection, choose_partner_type, tr; unfold_monad; simpl.
    rewrite !ustr_eqb_false by done; simpl. rewrite Hl; simpl.
    by rewrite <- !app_assoc.
  - intros H1.
    unfold handle_partner_option_selection, choose_partner_type, tr; unfold_monad; simpl.
    rewrite !ustr_eqb_false by done; simpl. rewrite Hl; simpl.
    by rewrite <- !app_assoc.
Qed.

Lemma partner_category_stored_witness :
  handle_partner_main_selection (s2u "TITHE") (MState ∅ (Some (s2u "en")) [] []) =
    (inr PARTNER_DETAILS_NAME,
     MState (<["partner_type" := VStr (s2u "TITHE")]> ∅) (Some (s2u "en"))
       [OAnswer; OClearMarkup; OReply (TKey "prompt_name" (s2u "en")) KNone] []).
Proof.
  apply (partner_category_stored (s2u "TITHE") (s2u "en") ∅ [] []);
    [vm_compute; reflexivity | vm_compute; congruence ..].
Defined.

(** In [PARTNER_PAYMENT_PROOF] only a new photo or document is taken by
    the state's handler. Any other update is either not handled at all,
    or, if a fallback takes it (a non-empty text, a command), runs [start]
    (which restarts the conversation, or raises on an edited message), or,
    for an edited photo or document, runs [set_partner_payment_proof],
    which raises at [update.message.photo] and leaves the state as it was
    with the error message; so the [upload_proof_error] branch of
    [set_partner_payment_proof] is never run. *)
Theorem payment_proof_needs_media e c ev :
  c_state c = Some PARTNER_PAYMENT_PROOF -> media_file_id ev = None ->
  step e c ev = c \/ step e c ev = run_handler (start_handler e ev) c \/
  step e c ev = Config (c_state c) (snd (error_handler (c_ms c))).
Proof.
  intros Hs Hm. unfold step. rewrite Hs.
  assert (state_handler e PARTNER_PAYMENT_PROOF ev = None \/
          state_handler e PARTNER_PAYMENT_PROOF ev = Some (raise AttributeError)) as [-> | ->].
  { destruct ev as [d|t|cmd|ids|f|t|cmd|ids|f|]; simpl in Hm |- *; try discriminate; auto.
    - apply last_None in Hm. subst ids. auto.
    - destruct (last ids); auto. }
  - destruct (fallback e ev) as [h|] eqn:Hf; [|auto].
    rewrite (fallback_start e ev h Hf). auto.
  - right; right. unfold run_handler. simpl. rewrite Hs. reflexivity.
Qed.

Lemma payment_proof_needs_media_witness :
  let c := step e_user partner_until_amount (ev_text "150.5") in
  step e_user c (ev_text "hello") = c \/
  step e_user c (ev_text "hello") = run_handler (start_handler e_user (ev_text "hello")) c \/
  step e_user c (ev_text "hello") = Config (c_state c) (snd (error_handler (c_ms c))).
Proof.
  apply payment_proof_needs_media; vm_compute; reflexivity.
Defined.

(** ** Phone numbers and amounts *)

Lemma digit_or_point_cases c : digit_or_point c ->
  c = 46 \/ c = 47 \/ c = 48 \/ c = 49 \/ c = 50 \/ c = 51 \/ c = 52 \/ c = 53 \/
  c = 54 \/ c = 55 \/ c = 56 \/ c = 57.
Proof. unfold digit_or_point. lia. Qed.

Lemma ascii_digit_point c : is_ascii_digit c = true -> digit_or_point c.
Proof. unfold is_ascii_digit, digit_or_point. rewrite andb_true_iff, !N.leb_le. lia. Qed.

Lemma drop_while_keep (p : N -> bool) s : Forall (fun c => p c = false) s -> drop_while p s = s.
Proof. destruct s as [|c s]; [done|]. intros Hs. inversion Hs; subst. simpl. by rewrite H1. Qed.

Lemma span_digits_app ds r : Forall (fun c => is_ascii_digit c = true) ds ->
  span_digits (ds ++ r) = (ds ++ fst (span_digits r), snd (span_digits r))%list.
Proof.
  induction 1 as [|c ds Hc _ IH]; simpl.
  - by destruct (span_digits r).
  - rewrite Hc, IH. done.
Qed.

(** [float()] on a string of digits and points that has no whitespace,
    underscore or non-ASCII character: the transformations before the
    parser do nothing. *)
Lemma py_float_plain s : s <> [] -> Forall digit_or_point s ->
  py_float s = match py_strtod s with
               | Some (x, []) => Some x
               | Some (_, _) => None
               | None => match py_parse_inf_or_nan s with Some (x, []) => Some x | _ => None end
               end.
Proof.
  intros Hne Hs. unfold py_float.
  assert (transform_decimal_and_space s = s) as ->.
  { unfold transform_decimal_and_space.
    replace (forallb (fun c => c <? 128) s) with true; [done|].
    symmetry. apply forallb_forall. intros x Hx. apply list_elem_of_In in Hx.
    rewrite Forall_forall in Hs. apply Hs in Hx. unfold digit_or_point in Hx.
    apply N.ltb_lt. lia. }
  assert (remove_underscores s = Some s) as ->.
  { unfold remove_underscores.
    replace (existsb (N.eqb 95) s) with false; [done|].
    symmetry. apply not_true_iff_false. rewrite existsb_exists.
    intros (x & Hx & Heq). apply N.eqb_eq in Heq. subst x.
    apply list_elem_of_In in Hx. rewrite Forall_forall in Hs. apply Hs in Hx.
    unfold digit_or_point in Hx. lia. }
  unfold float_from_string_inner.
  assert (Forall (fun c => py_isspace_ascii c = false) s) as Hsp.
  { eapply Forall_impl; [exact Hs|]. intros c Hc. unfold py_isspace_ascii.
    apply digit_or_point_cases in Hc. repeat destruct Hc as [-> | Hc]; [done ..|]. by subst. }
  rewrite (drop_while_keep _ s Hsp), (drop_while_keep _ (rev s)) by by apply Forall_rev.
  rewrite rev_involutive. by destruct s.
Qed.

Lemma parse_sign_plain c s : digit_or_point c -> parse_sign (c :: s) = (false, c :: s).
Proof. intros Hc. apply digit_or_point_cases in Hc. repeat destruct Hc as [-> | Hc]; [done ..|]. by subst. Qed.

Lemma digits_value_zero ds acc : Forall (fun c => is_ascii_digit c = true) ds ->
  (fold_left (fun acc c => acc * 10 + (c - 48)) ds acc = 0 <-> acc = 0 /\ Forall (fun c => c = 48) ds).
Proof.
  intros Hds. revert acc. induction Hds as [|c ds Hc _ IH]; intros acc; simpl.
  - split; [auto | tauto].
  - rewrite IH, Forall_cons. unfold is_ascii_digit in Hc.
    rewrite andb_true_iff, !N.leb_le in Hc.
    split; intros; destruct_and!; split_and!; try done; lia.
Qed.

Lemma span_digits_all ds : Forall (fun c => is_ascii_digit c = true) ds -> span_digits ds = (ds, []).
Proof. intros Hds. rewrite <- (app_nil_r ds) at 1. rewrite span_digits_app by done. by rewrite app_nil_r. Qed.

Lemma py_float_digits ds : ds <> [] -> Forall (fun c => is_ascii_digit c = true) ds ->
  py_float ds = Some (PFin false (digits_value ds) 0).
Proof.
  intros Hne Hds. rewrite py_float_plain by (done || (eapply Forall_impl; [exact Hds | apply ascii_digit_point])).
  unfold py_strtod.
  destruct ds as [|c ds']; [done|].
  rewrite parse_sign_plain by (apply ascii_digit_point; by inversion Hds).
  rewrite span_digits_all by done. simpl. by rewrite app_nil_r.
Qed.

Lemma py_float_point ip fp : Forall (fun c => is_ascii_digit c = true) ip ->
  Forall (fun c => is_ascii_digit c = true) fp -> (ip ++ fp)%list <> [] ->
  py_float (ip ++ 46 :: fp)%list = Some (PFin false (digits_value (ip ++ fp)) (- Z.of_nat (length fp))).
Proof.
  intros Hip Hfp Hne.
  rewrite py_float_plain.
  2: { by destruct ip. }
  2: { apply Forall_app; split; [|constructor; [unfold digit_or_point; lia|]];
       (eapply Forall_impl; [eassumption | apply ascii_digit_point]). }
  unfold py_strtod.
  assert (parse_sign (ip ++ 46 :: fp)%list = (false, ip ++ 46 :: fp)%list) as ->.
  { destruct ip as [|c ip']; simpl; [done|].
    apply parse_sign_plain, ascii_digit_point. by inversion Hip. }
  rewrite span_digits_app by done. simpl. rewrite span_digits_all by done.
  rewrite app_nil_r. simpl.
  destruct (ip ++ fp)%list eqn:E; [done|]. reflexivity.
Qed.

(** [float()] on a plain decimal numeral (ASCII digits with at most one
    point, at least one digit) gives the non-negative value of its digits
    scaled by the number of digits after the point. *)
Theorem py_float_decimal_numeral ip fp :
  Forall (fun c => is_ascii_digit c = true) ip -> Forall (fun c => is_ascii_digit c = true) fp ->
  (ip ++ fp)%list <> [] ->
  py_float (ip ++ fp)%list = Some (PFin false (digits_value (ip ++ fp)) 0) /\
  py_float (ip ++ 46 :: fp)%list = Some (PFin false (digits_value (ip ++ fp)) (- Z.of_nat (length fp))).
Proof.
  intros Hip Hfp Hne. split.
  - apply py_float_digits; [done|]. by apply Forall_app.
  - by apply py_float_point.
Qed.

Lemma py_float_decimal_numeral_witness :
  py_float (s2u "1505") = Some (PFin false 1505 0) /\
  py_float (s2u "150.5") = Some (PFin false 1505 (-1)).
Proof.
  destruct (py_float_decimal_numeral (s2u "150") (s2u "5")) as [H1 H2];
    [repeat constructor | repeat constructor | vm_compute; congruence |].
  split; [exact H1 | exact H2].
Defined.

(** The amount step on a whole number written in ASCII digits: it is
    refused (the invalid-input message and the amount prompt again) when
    every digit is ['0'], and otherwise stored as the amount of the digits
    before the payment proof is asked for. *)
Theorem amount_whole_number ds l dt out rows :
  valid_lang l = true -> ds <> [] -> Forall (fun c => is_ascii_digit c = true) ds ->
  set_partner_amount ds (MState dt (Some l) out rows) =
    if bool_decide (Forall (fun c => c = 48) ds) then
      (inr PARTNER_AMOUNT, MState dt (Some l) (out ++ [OReply (TInvalid "prompt_amount" l) KNone])%list rows)
    else
      (inr PARTNER_PAYMENT_PROOF,
       MState (<["partner_amount" := VAmount (PFin false (digits_value ds) 0)]> dt) (Some l)
         (out ++ [OReply (TKey "prompt_payment_proof" l) KNone])%list rows).
Proof.
  intros Hl Hne Hds.
  unfold set_partner_amount, tr, tr_invalid; unfold_monad; simpl.
  rewrite py_float_digits by done. simpl. rewrite Hl.
  pose proof (digits_value_zero ds 0 Hds) as Hz. unfold digits_value.
  case_bool_decide as Hall.
  - replace (fold_left _ ds 0 =? 0) with true by (symmetry; apply N.eqb_eq; by apply Hz). done.
  - replace (fold_left _ ds 0 =? 0) with false by (symmetry; apply N.eqb_neq; intros H; apply Hall, Hz, H).
    done.
Qed.

Lemma amount_whole_number_witness :
  fst (set_partner_amount (s2u "000") (MState ∅ (Some (s2u "en")) [] [])) = inr PARTNER_AMOUNT.
Proof.
  rewrite (amount_whole_number (s2u "000") (s2u "en") ∅ [] []);
    [vm_compute; reflexivity | vm_compute; reflexivity | vm_compute; congruence | repeat constructor].
Defined.

(** ** Languages and errors *)

(** A participant's language changes only in [LANG_SELECT]: every other
    state's handlers, the fallbacks ([start]) and the error handler keep
    the entry of [user_languages]. *)
Theorem language_kept_outside_selection e c ev :
  c_state c <> Some LANG_SELECT -> ms_lang (c_ms (step e c ev)) = ms_lang (c_ms c).
Proof.
  destruct c as [st ms]; simpl. intros Hst. unfold step; simpl.
  assert (forall (P : state -> Prop) h, sound P h ->
            ms_lang (c_ms (run_handler h (Config st ms))) = ms_lang ms) as Hrun.
  { intros P h Hh. destruct (Hh ms) as [Hl _]. unfold run_handler; simpl.
    destruct (h ms) as [[ex|x] ms'] eqn:E; simpl in *.
    - by rewrite (proj2 (error_handler_keeps ms')), Hl.
    - done. }
  destruct st as [s|].
  - destruct (state_handler e s ev) as [h|] eqn:Hh.
    + eapply Hrun, state_handler_sound; [exact Hh | congruence].
    + destruct (fallback e ev) as [h|] eqn:Hf; [|done].
      eapply Hrun, fallback_sound, Hf.
  - destruct (is_start_command ev); [|done]. eapply Hrun, sound_start_handler.
Qed.

Lemma language_kept_outside_selection_witness :
  ms_lang (c_ms (step e_user member_until_phone (ev_text "+27821234567")))
    = ms_lang (c_ms member_until_phone).
Proof.
  apply language_kept_outside_selection. vm_compute. congruence.
Defined.

(** ** The daily message *)

Section DailyMessageFacts.

Variable cell : Type.
Variable cell_truthy : cell -> bool.
Variable cell_str : cell -> ustr.
Variable cell_eq_str : cell -> ustr -> bool.

Abbreviation daily_text' := (daily_text cell cell_truthy cell_str).
Abbreviation is_today' := (is_today cell cell_eq_str).
Abbreviation daily_loop' := (daily_loop cell cell_truthy cell_str cell_eq_str).

Abbreviation no_content' := (no_content cell cell_truthy).

Lemma daily_text_cases sc msg :
  match daily_text' sc msg with
  | Some t => t <> []
  | None => get_truthy cell cell_truthy sc = false /\ get_truthy cell cell_truthy msg = false
  end.
Proof.
  unfold daily_text, scripture_header, message_header.
  destruct (get_truthy cell cell_truthy sc), (get_truthy cell cell_truthy msg); simpl;
    try done; intros [=].
Qed.

(** [get_daily_message] returns the empty string exactly when the sheet
    cannot be read or no record dated today has a scripture or a
    message; any message it returns is non-empty (its header). *)
Theorem daily_message_empty_iff today records :
  get_daily_message cell cell_truthy cell_str cell_eq_str today records = [] <->
  match records with
  | None => True
  | Some rs => Forall (fun r => is_today' today r = true -> no_content' r) rs
  end.
Proof.
  destruct records as [rs|]; simpl; [|done].
  induction rs as [|r rs IH]; simpl; [split; [constructor | done]|].
  rewrite Forall_cons, <- IH.
  destruct (is_today' today r); [|split; [intros H; split; [done | exact H] | by intros [_ H]]].
  pose proof (daily_text_cases (record_get cell r "Scripture") (record_get cell r "Motivational Message")) as Hc.
  destruct (daily_text' _ _) as [t|] eqn:Ed; simpl.
  - split; [done|]. intros [H _]. destruct (H eq_refl) as [Hs Hm].
    unfold daily_text in Ed. rewrite Hs, Hm in Ed. discriminate.
  - split; [intros H; split; [by intros _ | exact H] | by intros [_ H]].
Qed.

(** Records not dated today play no part: [get_daily_message] gives the
    same result on the records of today alone. *)
Theorem daily_message_only_today today rs :
  get_daily_message cell cell_truthy cell_str cell_eq_str today (Some rs) =
  get_daily_message cell cell_truthy cell_str cell_eq_str today (Some (filter (fun r => is_today' today r = true) rs)).
Proof.
  simpl. f_equal. induction rs as [|r rs IH]; simpl; [done|].
  rewrite filter_cons. destruct (is_today' today r) eqn:E; simpl.
  - rewrite E. destruct (daily_text' _ _); [done | exact IH].
  - exact IH.
Qed.

End DailyMessageFacts.

(** ** Handlers that never raise *)




Lemma dead_states_unreachable_witness :
  c_state member_until_phone <> Some CONTACT_ADMIN_INFO /\
  c_state member_until_phone <> Some PARTNER_PAYMENT_METHOD.
Proof. apply dead_states_unreachable. solve_reachable. Defined.


